(** * neo-comet-tracker: the query / normalisation pipeline of [app.py]

    A shallow embedding of [fetch_close_approaches], [parse_data] and the
    concatenate-and-deduplicate step of [main], together with the framework
    calls they make ([requests], [pandas], [streamlit]), and the properties
    of the pipeline stated over that embedding.

    Python values that the pipeline only moves around are kept abstract;
    exceptions are values with a class and a description; the network and
    the page are explicit state. *)

From Stdlib Require Import ZArith Ascii.
From stdpp Require Import gmap strings list pretty.

(** ** Python: exceptions and results *)

Module Py.

(** The exception classes the pipeline can meet. *)
Inductive exc_class :=
| NameError | UnboundLocalError | KeyError | ValueError | TypeError
| InvalidIndexError | OutOfBoundsDatetime
| RequestException | HTTPError | ConnectionError | Timeout | JSONDecodeError.

#[global] Instance exc_class_eq_dec : EqDecision exc_class.
Proof. solve_decision. Defined.

(** The proper ancestors of a class, among the classes above:
    [UnboundLocalError] derives from [NameError]; pandas'
    [OutOfBoundsDatetime] from [ValueError]; the [requests] errors
    derive from [RequestException]; [requests.exceptions.JSONDecodeError]
    derives from both [RequestException] and [ValueError]. *)
Definition ancestors (c : exc_class) : list exc_class :=
  match c with
  | UnboundLocalError => [NameError]
  | OutOfBoundsDatetime => [ValueError]
  | HTTPError | ConnectionError | Timeout => [RequestException]
  | JSONDecodeError => [RequestException; ValueError]
  | _ => []
  end.

Definition issubclass (c d : exc_class) : bool :=
  bool_decide (c = d) || bool_decide (d ∈ ancestors c).

Record exc := Exc { exc_cls : exc_class; exc_msg : string }.

(** [isinstance e c]: an [except c] clause catches [e]. *)
Definition isinstance (e : exc) (c : exc_class) : bool :=
  issubclass (exc_cls e) c.

Inductive outcome (A : Type) :=
| Return (a : A)
| Raise (e : exc).
Arguments Return {A} a.
Arguments Raise {A} e.

#[global] Instance outcome_ret : MRet outcome := λ A a, Return a.
#[global] Instance outcome_bind : MBind outcome := λ A B k o,
  match o with
  | Return a => k a
  | Raise e => Raise e
  end.

(** Values the pipeline passes as query parameters or finds in the
    module's namespace. *)
Inductive pyobj :=
| PyStr (s : string)
| PyInt (n : Z)
| PyDict (d : gmap string string)
| PyModule (name : string)
| PyClass (name : string)
| PyFunction (name : string).

#[global] Instance pyobj_eq_dec : EqDecision pyobj.
Proof. solve_decision. Defined.

(** [a == b] on these values: strings and integers compare by value,
    the other objects by identity (their name here). *)
Definition py_eq (a b : pyobj) : bool := bool_decide (a = b).

End Py.
Export Py.

(** ** The page and the network *)

(** Calls on the [streamlit] page that report something to the user. *)
Inductive st_call :=
| st_error (msg : string)
| st_warning (msg : string).

Definition is_st_error (c : st_call) : bool :=
  match c with st_error _ => true | st_warning _ => false end.

(** The state the pipeline acts on: the requests issued so far (oldest
    first), each with its URL and query parameters, and the messages put
    on the page (oldest first). *)
Record state := State {
  requests_issued : list (string * gmap string pyobj);
  page : list st_call
}.

Definition initial : state := State [] [].

(** A computation: takes the state, returns or raises, leaves a state. *)
Definition M (A : Type) : Type := state → outcome A * state.

#[global] Instance M_ret : MRet M := λ A a s, (Return a, s).
#[global] Instance M_bind : MBind M := λ A B k m s,
  match m s with
  | (Return a, s') => k a s'
  | (Raise e, s') => (Raise e, s')
  end.

Definition raise {A} (e : exc) : M A := λ s, (Raise e, s).

(** [try: body / except: handler]; the handler re-raises what none of
    its clauses catches. *)
Definition try_except {A} (body : M A) (handler : exc → M A) : M A :=
  λ s, match body s with
       | (Raise e, s') => handler e s'
       | r => r
       end.

Definition lift {A} (o : outcome A) : M A := λ s, (o, s).

Definition st_report (c : st_call) : M unit :=
  λ s, (Return tt, State (requests_issued s) (page s ++ [c])).

(** ** [requests] *)

Module Requests.
Section Requests.
(** The decoded-JSON values; the fetcher never looks inside them. *)
Context {json : Type}.

(** A response as the fetcher uses it: [raise_for_status] raises an
    [HTTPError] with some description when the status is 4xx/5xx, and
    [json()] decodes the body or raises [JSONDecodeError]. *)
Record response := Response {
  status_error : option string;
  body_json : option json
}.

(** What the network does with a GET: a response, or an exception
    raised by [requests.get] itself. *)
Definition network : Type :=
  string → gmap string pyobj → outcome response.

Definition get (net : network) (url : string) (params : gmap string pyobj)
  : M response :=
  λ s, (net url params,
        State (requests_issued s ++ [(url, params)]) (page s)).

Definition raise_for_status (r : response) : M unit :=
  match status_error r with
  | Some msg => raise (Exc HTTPError msg)
  | None => mret tt
  end.

Definition decode_error : exc :=
  Exc JSONDecodeError "Expecting value: line 1 column 1 (char 0)".

Definition response_json (r : response) : M json :=
  match body_json r with
  | Some j => mret j
  | None => raise decode_error
  end.
End Requests.
Arguments response : clear implicits.
Arguments network : clear implicits.
End Requests.

(** ** [pandas] *)

Module Pandas.

(** *** Characters *)

Definition chars (s : string) : list ascii := String.list_ascii_of_string s.

Definition is_digit (c : ascii) : bool :=
  (48 <=? nat_of_ascii c) && (nat_of_ascii c <=? 57).
Definition digit (c : ascii) : nat := nat_of_ascii c - 48.

(** [\s] of a [str] pattern, on one-byte characters. *)
Definition is_space (c : ascii) : bool :=
  bool_decide (nat_of_ascii c ∈ [9; 10; 11; 12; 13; 28; 29; 30; 31; 32]).
(** C's [isspace], as the numeric tokenizer uses it. *)
Definition is_cspace (c : ascii) : bool :=
  bool_decide (nat_of_ascii c ∈ [9; 10; 11; 12; 13; 32]).

Definition lower (c : ascii) : ascii :=
  if (65 <=? nat_of_ascii c) && (nat_of_ascii c <=? 90)
  then ascii_of_nat (nat_of_ascii c + 32) else c.

Fixpoint span (P : ascii → bool) (cs : list ascii) : list ascii * list ascii :=
  match cs with
  | c :: r => if P c then let '(a, b) := span P r in (c :: a, b) else ([], cs)
  | [] => ([], [])
  end.

Definition number_of (ds : list ascii) : Z :=
  fold_left (λ acc c, 10 * acc + Z.of_nat (digit c))%Z ds 0%Z.

(** *** Timestamps: [strptime] with the format ['%Y-%b-%d %H:%M'] *)

Record Timestamp := Ts {
  year : nat; month : nat; day : nat; hour : nat; minute : nat
}.

#[global] Instance Timestamp_eq_dec : EqDecision Timestamp.
Proof. solve_decision. Defined.

(** A regular-expression fragment: every way it matches a prefix of the
    input, in the order the backtracking matcher tries them. *)
Definition matcher (A : Type) : Type := list ascii → list (A * list ascii).

Definition alt {A} (ms : list (matcher A)) : matcher A :=
  λ cs, m ← ms; m cs.

Definition andthen {A B} (m : matcher A) (k : A → matcher B) : matcher B :=
  λ cs, ar ← m cs; k ar.1 ar.2.

Definition lit (c : ascii) : matcher unit :=
  λ cs, match cs with
        | c' :: r => if bool_decide (c' = c) then [(tt, r)] else []
        | [] => []
        end.

Definition digits1 (P : nat → bool) : matcher nat :=
  λ cs, match cs with
        | a :: r => if is_digit a && P (digit a) then [(digit a, r)] else []
        | [] => []
        end.

Definition digits2 (P : nat → bool) (Q : nat → bool) : matcher nat :=
  λ cs, match cs with
        | a :: b :: r =>
            if is_digit a && is_digit b && P (digit a) && Q (digit b)
            then [(10 * digit a + digit b, r)] else []
        | _ => []
        end.

Definition any : nat → bool := λ _, true.

(** [%Y]: [\d\d\d\d]. *)
Definition re_Y : matcher nat :=
  andthen (digits2 any any) (λ hi,
  andthen (digits2 any any) (λ lo cs, [(100 * hi + lo, cs)])).

Definition month_abbr : list string :=
  ["jan"; "feb"; "mar"; "apr"; "may"; "jun";
   "jul"; "aug"; "sep"; "oct"; "nov"; "dec"].

Fixpoint index_of (x : list ascii) (l : list string) (i : nat) : option nat :=
  match l with
  | y :: l' => if bool_decide (chars y = x) then Some i else index_of x l' (S i)
  | [] => None
  end.

(** [%b]: an abbreviated month name, letter case ignored. *)
Definition re_b : matcher nat :=
  λ cs, match cs with
        | a :: b :: c :: r =>
            match index_of [lower a; lower b; lower c] month_abbr 1 with
            | Some mo => [(mo, r)]
            | None => []
            end
        | _ => []
        end.

(** [%d]: [3[0-1]|[1-2]\d|0[1-9]|[1-9]| [1-9]]. *)
Definition re_d : matcher nat :=
  alt [digits2 (λ a, a =? 3) (λ b, b <=? 1);
       digits2 (λ a, (1 <=? a) && (a <=? 2)) any;
       digits2 (λ a, a =? 0) (λ b, 1 <=? b);
       digits1 (λ a, 1 <=? a);
       andthen (lit " ") (λ _, digits1 (λ a, 1 <=? a))].

(** [%H]: [2[0-3]|[0-1]\d|\d]. *)
Definition re_H : matcher nat :=
  alt [digits2 (λ a, a =? 2) (λ b, b <=? 3);
       digits2 (λ a, a <=? 1) any;
       digits1 any].

(** [%M]: [[0-5]\d|\d]. *)
Definition re_M : matcher nat :=
  alt [digits2 (λ a, a <=? 5) any; digits1 any].

(** [\s+], which a blank in the format stands for: the longest run of
    blanks first, then the shorter ones. *)
Definition re_spaces : matcher unit :=
  λ cs, let n := length (span is_space cs).1 in
        (λ k, (tt, drop (n - k) cs)) <$> seq 0 n.

Definition re_format : matcher Timestamp :=
  andthen re_Y (λ y,
  andthen (lit "-") (λ _,
  andthen re_b (λ mo,
  andthen (lit "-") (λ _,
  andthen re_d (λ d,
  andthen re_spaces (λ _,
  andthen re_H (λ h,
  andthen (lit ":") (λ _,
  andthen re_M (λ mi cs, [(Ts y mo d h mi, cs)]))))))))).

Definition is_leap (y : nat) : bool :=
  (y mod 4 =? 0) && (negb (y mod 100 =? 0) || (y mod 400 =? 0)).

Definition days_in_month (y mo : nat) : nat :=
  match mo with
  | 2 => if is_leap y then 29 else 28
  | 4 | 6 | 9 | 11 => 30
  | _ => 31
  end.

(** The first match must use up the whole text, and the fields must
    name a calendar day. *)
Definition strptime (s : string) : option Timestamp :=
  match re_format (chars s) with
  | (t, rest) :: _ =>
      if bool_decide (rest = []) && (1 <=? year t)
         && (day t <=? days_in_month (year t) (month t))
      then Some t else None
  | [] => None
  end.

(** A timestamp column counts nanoseconds from 1970 in 64 bits: it holds
    the minutes from 1677-09-21 00:13 to 2262-04-11 23:47. *)
Definition minute_key (t : Timestamp) : Z :=
  ((((Z.of_nat (year t) * 100 + Z.of_nat (month t)) * 100 + Z.of_nat (day t))
    * 100 + Z.of_nat (hour t)) * 100 + Z.of_nat (minute t))%Z.

Definition in_bounds (t : Timestamp) : bool :=
  (167709210013 <=? minute_key t)%Z && (minute_key t <=? 226204112347)%Z.

(** *** Numbers: the tokenizer behind [to_numeric] *)

(** A parsed number: [mantissa * 10 ^ exponent], the mantissa not a
    multiple of ten unless it is zero, or an infinity. Rounding to
    binary floating point is not part of the model: the decimal stands
    for the double pandas stores, which is the double nearest to it as
    long as the text has at most 17 digits, below 2^53 taken together,
    and a power of ten within 22. Beyond that pandas rounds more than
    once, reads an overflow as no number and an underflow as zero; the
    decimal does not follow it there, and the properties that name the
    number in a cell keep to texts within these bounds. *)
Inductive number :=
| Decimal (mantissa exponent : Z)
| Infinity (negative : bool).

#[global] Instance number_eq_dec : EqDecision number.
Proof. solve_decision. Defined.

Definition take_sign (cs : list ascii) : bool * list ascii :=
  match cs with
  | "-"%char :: r => (true, r)
  | "+"%char :: r => (false, r)
  | _ => (false, cs)
  end.

Fixpoint strip_zeros (rev_ds : list ascii) (k : Z) : list ascii * Z :=
  match rev_ds with
  | "0"%char :: r => strip_zeros r (k + 1)%Z
  | _ => (rev_ds, k)
  end.

Definition decimal (negative : bool) (ds : list ascii) (e : Z) : number :=
  let '(rev_ds, k) := strip_zeros (rev ds) 0%Z in
  let m := number_of (rev rev_ds) in
  if (m =? 0)%Z then Decimal 0 0
  else Decimal (if negative then - m else m)%Z (e + k)%Z.

Definition special (s : string) : option number :=
  let w := lower <$> chars s in
  if bool_decide (w ∈ chars <$> ["inf"; "+inf"; "infinity"; "+infinity"])
  then Some (Infinity false)
  else if bool_decide (w ∈ chars <$> ["-inf"; "-infinity"])
  then Some (Infinity true)
  else None.

(** Blanks, sign, digits with an optional point, an optional exponent,
    blanks, end of text; failing that, one of the special words. [None]
    is "not a number". *)
Definition to_float (s : string) : option number :=
  let cs := (span is_cspace (chars s)).2 in
  let '(neg, cs) := take_sign cs in
  let '(ip, cs) := span is_digit cs in
  let '(fp, cs) := match cs with
                   | "."%char :: r => span is_digit r
                   | _ => ([], cs)
                   end in
  if bool_decide (ip ++ fp = []) then special s
  else
    let '(e, cs) :=
      match cs with
      | c :: r =>
          if bool_decide (lower c = "e"%char) then
            let '(eneg, r) := take_sign r in
            let '(ed, r) := span is_digit r in
            if bool_decide (ed = []) then (0%Z, cs)
            else ((if eneg then - number_of ed else number_of ed)%Z, r)
          else (0%Z, cs)
      | [] => (0%Z, cs)
      end in
    if bool_decide ((span is_cspace cs).2 = [])
    then Some (decimal neg (ip ++ fp) (e - Z.of_nat (length fp))%Z)
    else special s.

(** *** Frames *)

(** A cell: text, a number, a timestamp, or the missing marker
    ([None], [NaN] or [NaT], according to the column it sits in). *)
Inductive cell :=
| Str (s : string)
| Num (x : number)
| Stamp (t : Timestamp)
| Missing.

#[global] Instance cell_eq_dec : EqDecision cell.
Proof. solve_decision. Defined.

Definition Series : Type := list cell.

(** A frame: its column labels and its rows, each row holding one cell
    per column. Row labels play no part in the pipeline and are left out. *)
Record DataFrame := Frame {
  columns : list string;
  rows : list (list cell)
}.

#[global] Instance DataFrame_eq_dec : EqDecision DataFrame.
Proof. solve_decision. Defined.

(** [pd.DataFrame()] *)
Definition empty_frame : DataFrame := Frame [] [].

Definition of_json (v : option string) : cell :=
  match v with Some s => Str s | None => Missing end.

Definition pad (width : nat) (r : list cell) : list cell :=
  r ++ replicate (width - length r) Missing.

(** The records, cell by cell. *)
Definition raw_rows (records : list (list (option string))) : list (list cell) :=
  (λ r : list (option string), of_json <$> r) <$> records.

(** [pd.DataFrame(records, columns=columns)] on a list of lists: short
    records are filled up with the missing marker to the longest one,
    and that width must be the number of labels. *)
Definition DataFrame_of (records : list (list (option string)))
    (columns : list string) : outcome DataFrame :=
  match records with
  | [] => Return (Frame columns [])
  | _ =>
      let width := max_list (length <$> records) in
      if bool_decide (width = length columns)
      then Return (Frame columns (pad width <$> raw_rows records))
      else Raise (Exc ValueError "columns passed do not match the data")
  end.

(** The positions at which a label occurs. *)
Fixpoint positions (c : string) (labels : list string) (i : nat) : list nat :=
  match labels with
  | l :: labels' =>
      if bool_decide (l = c) then i :: positions c labels' (S i)
      else positions c labels' (S i)
  | [] => []
  end.

Definition cell_at (i : nat) (r : list cell) : cell := default Missing (r !! i).

(** [fd[c]]: a series when the label is unique, a frame of the columns
    that carry it when it is repeated, [KeyError] when it is absent. *)
Definition getitem (fd : DataFrame) (c : string) : outcome (Series + DataFrame) :=
  match positions c (columns fd) 0 with
  | [] => Raise (Exc KeyError c)
  | [i] => Return (inl (cell_at i <$> rows fd))
  | ps => Return (inr (Frame (const c <$> ps)
                             ((λ r, (λ i, cell_at i r) <$> ps) <$> rows fd)))
  end.

(** [fd[c] = v]: every column labelled [c] takes the values, or a new
    last column is added when there is none. *)
Definition setitem (fd : DataFrame) (c : string) (v : Series) : DataFrame :=
  match positions c (columns fd) 0 with
  | [] => Frame (columns fd ++ [c]) (zip_with (λ r x, r ++ [x]) (rows fd) v)
  | ps => Frame (columns fd)
                (zip_with (λ r x, foldr (λ i r', <[i := x]> r') r ps) (rows fd) v)
  end.

Definition nat_strings : list string :=
  ["NaT"; "nat"; "NAT"; "nan"; "NaN"; "NAN"].

(** One value under [to_datetime(..., format='%Y-%b-%d %H:%M')], whose
    [errors] argument is left at ['raise']. *)
Definition to_datetime_cell (x : cell) : outcome cell :=
  match x with
  | Str s =>
      if bool_decide (s = "") || bool_decide (s ∈ nat_strings) then Return Missing
      else match strptime s with
           | Some t =>
               if in_bounds t then Return (Stamp t)
               else Raise (Exc OutOfBoundsDatetime
                             "Out of bounds nanosecond timestamp")
           | None =>
               Raise (Exc ValueError
                 ("time data '" +:+ s +:+ "' doesn't match format '%Y-%b-%d %H:%M'"))
           end
  | Missing => Return Missing
  | Stamp t => Return (Stamp t)
  | Num _ =>
      Raise (Exc ValueError "time data doesn't match format '%Y-%b-%d %H:%M'")
  end.

Fixpoint to_datetime_cells (v : Series) : outcome Series :=
  match v with
  | [] => Return []
  | x :: v' =>
      y ← to_datetime_cell x;
      w ← to_datetime_cells v';
      Return (y :: w)
  end.

Definition to_datetime (arg : Series + DataFrame) : outcome Series :=
  match arg with
  | inl v => to_datetime_cells v
  | inr _ =>
      Raise (Exc ValueError
        "to assemble mappings requires at least that [year, month, day] be specified")
  end.

(** One value under [to_numeric(..., errors='coerce')]. Cells that
    already left the text form are passed on; [parse_data] coerces each
    column once, so it meets text and the missing marker only. *)
Definition to_numeric_cell (x : cell) : cell :=
  match x with
  | Str s => match to_float s with
             | Some n => Num n
             | None => Missing
             end
  | other => other
  end.

Definition to_numeric_coerce (arg : Series + DataFrame) : outcome Series :=
  match arg with
  | inl v => Return (to_numeric_cell <$> v)
  | inr _ =>
      Raise (Exc TypeError "arg must be a list, tuple, 1-d array, or Series")
  end.

(** [fd.drop_duplicates()]: of rows equal in every column, the first
    stays. [seen] holds the rows met so far. *)
Fixpoint keep_first (seen : list (list cell)) (l : list (list cell))
  : list (list cell) :=
  match l with
  | [] => []
  | r :: l' =>
      if bool_decide (r ∈ seen) then keep_first seen l'
      else r :: keep_first (r :: seen) l'
  end.

Definition drop_duplicates (fd : DataFrame) : DataFrame :=
  Frame (columns fd) (keep_first [] (rows fd)).

Definition reindex (labels : list string) (fd : DataFrame) : list (list cell) :=
  (λ r, (λ c, match positions c (columns fd) 0 with
              | i :: _ => cell_at i r
              | [] => Missing
              end) <$> labels) <$> rows fd.

(** [pd.concat([a, b], ignore_index=True)]. A frame without rows and
    columns is left out; frames with the same labels are stacked; with
    different labels the result has the labels of [a] followed by the
    new ones of [b], and absent cells are missing; that needs the labels
    of each frame to be distinct. *)
Definition concat (a b : DataFrame) : outcome DataFrame :=
  if bool_decide (a = empty_frame) then Return b
  else if bool_decide (b = empty_frame) then Return a
  else if bool_decide (columns a = columns b)
  then Return (Frame (columns a) (rows a ++ rows b))
  else if bool_decide (NoDup (columns a)) && bool_decide (NoDup (columns b))
  then
    let labels := columns a ++ filter (λ c, c ∉ columns a) (columns b) in
    Return (Frame labels (reindex labels a ++ reindex labels b))
  else
    Raise (Exc InvalidIndexError
      "Reindexing only valid with uniquely valued Index objects").

End Pandas.

(** ** [app.py]: the fetcher *)

Definition BODY_CODES : gmap string string :=
  list_to_map
    [("Mercury", "Merc"); ("Venus", "Venus"); ("Earth", "Earth");
     ("Mars", "Mars"); ("Jupiter", "Juptr"); ("Saturn", "Satrn");
     ("Uranus", "Urnus"); ("Neptune", "Neptn"); ("Moon", "Moon")].

(** The names bound at module level when a function of [app.py] runs. *)
Definition module_globals : gmap string pyobj :=
  list_to_map
    [("st", PyModule "streamlit"); ("requests", PyModule "requests");
     ("pd", PyModule "pandas"); ("px", PyModule "plotly.express");
     ("datetime", PyClass "datetime"); ("timedelta", PyClass "timedelta");
     ("sys", PyModule "sys"); ("io", PyModule "io");
     ("BODY_CODES", PyDict BODY_CODES);
     ("fetch_close_approaches", PyFunction "fetch_close_approaches");
     ("parse_data", PyFunction "parse_data");
     ("visualize_close_approaches", PyFunction "visualize_close_approaches");
     ("main", PyFunction "main")].

(** Reading a name that is not a local of the running function: the
    module's globals are searched (the builtins, searched next, hold none
    of the names read here), and a miss raises [NameError]. *)
Definition load_global (name : string) : M pyobj :=
  match module_globals !! name with
  | Some v => mret v
  | None => raise (Exc NameError ("name '" +:+ name +:+ "' is not defined"))
  end.

Section Fetcher.
Context {json : Type}.
(** [str(j)], as an f-string renders a decoded value. *)
Variable str_json : json → string.
Variable net : Requests.network json.

Definition url : string := "https://ssd-api.jpl.nasa.gov/cad.api".

(** Lines 27-33: the dictionary literal. *)
Definition my_params_literal
    (body_code min_date max_date max_dist dist_unit : string) (my_limit : Z)
  : gmap string pyobj :=
  <["limit" := PyInt my_limit]>
  (<["dist-max" := PyStr (max_dist +:+ dist_unit)]>
  (<["date-max" := PyStr max_date]>
  (<["date-min" := PyStr min_date]>
  (<["body" := PyStr body_code]> ∅)))).

(** Lines 36-39: the object-type branch. The [elif] reads the name
    [object_tye], which is no parameter and no local. *)
Definition add_object_type (object_type : string)
    (my_params : gmap string pyobj) : M (gmap string pyobj) :=
  if py_eq (PyStr object_type) (PyStr "NEO") then
    mret (<["neo" := PyStr "true"]> my_params)
  else
    object_tye ← load_global "object_tye";
    if py_eq object_tye (PyStr "Comet") then
      mret (<["comet" := PyStr "true"]> my_params)
    else mret my_params.

(** Lines 47-57: the two [except] clauses. [response] is the local of
    that name, unbound when [requests.get] did not return. *)
Definition handle (response : option (Requests.response json)) (e : exc)
  : M (option json) :=
  if isinstance e HTTPError then
    st_report (st_error ("⚠️ HTTP error occurred: " +:+ exc_msg e));;
    match response with
    | None =>
        raise (Exc UnboundLocalError
          "cannot access local variable 'response' where it is not associated with a value")
    | Some r =>
        try_except
          (error_info ← Requests.response_json r;
           st_report (st_error ("🔍 Error Details: " +:+ str_json error_info)))
          (λ e', if isinstance e' ValueError then
                   st_report
                     (st_error "🔍 No additional error information provided.")
                 else raise e');;
        mret None
    end
  else if isinstance e RequestException then
    st_report (st_error ("⚠️ Error fetching data from API: " +:+ exc_msg e));;
    mret None
  else raise e.

Definition fetch_close_approaches
    (body_code min_date max_date max_dist dist_unit : string) (my_limit : Z)
    (object_type : string) : M (option json) :=
  my_params ←
    add_object_type object_type
      (my_params_literal body_code min_date max_date max_dist dist_unit my_limit);
  ((λ s, match Requests.get net url my_params s with
         | (Raise e, s1) => handle None e s1
         | (Return response, s1) =>
             match (Requests.raise_for_status response;;
                    Requests.response_json response) s1 with
             | (Return data, s2) => (Return (Some data), s2)
             | (Raise e, s2) => handle (Some response) e s2
             end
         end) : M (option json)).
End Fetcher.

(** ** [app.py]: the normalizer *)

(** A scalar of the decoded payload, as far as [count] is concerned. *)
Inductive jvalue :=
| JNull
| JBool (b : bool)
| JInt (n : Z)
| JStr (s : string).

(** [v == n] for an integer [n]: [True] and [False] count as 1 and 0. *)
Definition eq_int (v : jvalue) (n : Z) : bool :=
  match v with
  | JInt m => (m =? n)%Z
  | JBool b => ((if b then 1 else 0) =? n)%Z
  | JNull | JStr _ => false
  end.

(** The provider's payload: a dictionary in which each of the three keys
    may be absent. A record is a list of texts and nulls. *)
Record payload := Payload {
  get_count : option jvalue;
  get_fields : option (list string);
  get_data : option (list (list (option string)))
}.

Import Pandas.

Definition no_results : M DataFrame :=
  st_report (st_warning "⚠️ No close approached found for the given parameters.");;
  mret (empty_frame).

Definition parse_data (data : option payload) : M DataFrame :=
  match data with
  | None => no_results
  | Some d =>
      if eq_int (default (JInt 0) (get_count d)) 0 then no_results
      else
        let fields := default [] (get_fields d) in
        let records := default [] (get_data d) in
        fd ← lift (DataFrame_of records fields);
        cd ← lift (getitem fd "cd" ≫= to_datetime);
        let fd := setitem fd "cd" cd in
        dist ← lift (getitem fd "dist" ≫= to_numeric_coerce);
        let fd := setitem fd "dist" dist in
        v_rel ← lift (getitem fd "v_rel" ≫= to_numeric_coerce);
        let fd := setitem fd "v_rel" v_rel in
        v_inf ← lift (getitem fd "v_inf" ≫= to_numeric_coerce);
        let fd := setitem fd "v_inf" v_inf in
        mret fd
  end.

(** ** [app.py]: combining the two categories (lines 252-253 of [main]) *)

Definition combine (fd_neo fd_comet : DataFrame) : outcome DataFrame :=
  fd ← concat fd_neo fd_comet;
  Return (drop_duplicates fd).

(** Lines 228-253 of [main]: the branch for the object type 'Both',
    where the two frames to combine come from. *)
Definition both_branch (str_json : payload → string)
    (net : Requests.network payload)
    (body_code min_date max_date max_dist dist_unit : string) (limit : Z)
  : M DataFrame :=
  data_neo ← fetch_close_approaches str_json net body_code min_date max_date
                max_dist dist_unit limit "NEO";
  data_comet ← fetch_close_approaches str_json net body_code min_date max_date
                  max_dist dist_unit limit "Comet";
  fd_neo ← parse_data data_neo;
  fd_comet ← parse_data data_comet;
  lift (combine fd_neo fd_comet).

(** ** [datetime] *)

Module Datetime.

Record date := Date { d_year : nat; d_month : nat; d_day : nat }.

#[global] Instance date_eq_dec : EqDecision date.
Proof. solve_decision. Defined.

(** [datetime(y, m, d)]: the fields are checked in this order. *)
Definition new (y m d : nat) : outcome date :=
  if negb ((1 <=? y) && (Z.of_nat y <=? 9999)%Z) then
    Raise (Exc ValueError ("year " +:+ pretty y +:+ " is out of range"))
  else if negb ((1 <=? m) && (m <=? 12)) then
    Raise (Exc ValueError "month must be in 1..12")
  else if negb ((1 <=? d) && (d <=? Pandas.days_in_month y m)) then
    Raise (Exc ValueError "day is out of range for month")
  else Return (Date y m d).

Definition next_day (d : date) : date :=
  if d_day d <? Pandas.days_in_month (d_year d) (d_month d)
  then Date (d_year d) (d_month d) (S (d_day d))
  else if d_month d <? 12 then Date (d_year d) (S (d_month d)) 1
  else Date (S (d_year d)) 1 1.

(** The day [n] days after [d], on a calendar without a last year. *)
Definition plus_days (d : date) (n : nat) : date := Nat.iter n next_day d.

(** [d + timedelta(days=n)]: [None] stands for the [OverflowError] past
    the year 9999. *)
Definition add_timedelta (d : date) (n : nat) : option date :=
  if (Z.of_nat (d_year (plus_days d n)) <=? 9999)%Z
  then Some (plus_days d n) else None.

Definition digit_char (n : nat) : ascii := ascii_of_nat (48 + n).

Definition pad2 (n : nat) : string :=
  String (digit_char (n / 10)) (String (digit_char (n mod 10)) "").

(** [d.strftime('%Y-%m-%d')], for the years from 1000 on, which have
    four digits on every platform; the date widget starts at 1900. *)
Definition strftime (d : date) : string :=
  pad2 (d_year d / 100) +:+ pad2 (d_year d mod 100) +:+ "-"
  +:+ pad2 (d_month d) +:+ "-" +:+ pad2 (d_day d).

End Datetime.

(** ** [app.py]: the script and its page *)

(** What a run can end on besides an exception of the classes above. *)
Inductive failure :=
| Exception (e : exc)
| OverflowError (msg : string).

Inductive result (A : Type) :=
| Done (a : A)
| Failed (f : failure).
Arguments Done {A} a.
Arguments Failed {A} f.

(** The arguments of one [px.scatter] call. *)
Record scatter_call := Scatter {
  sc_data : DataFrame;
  sc_x : string;
  sc_y : string;
  sc_hover_data : list string;
  sc_labels : list (string * string);
  sc_title : string;
  sc_trendline : option string
}.

(** What the script puts on the page besides errors and warnings. Static
    text (titles, headers, help) is not recorded. A chart is recorded by
    the call that made its figure and the direction of its y axis. *)
Inductive element :=
| st_success (msg : string)
| st_info (msg : string)
| st_dataframe (table : DataFrame)
| st_download_button (data : string)
| st_plotly_chart (call : scatter_call) (yaxis_reversed : bool).

(** [st.session_state], with its three keys. *)
Record session := Session {
  s_fd : option DataFrame;
  s_body_display : option string;
  s_dist_unit : option string
}.

Record app := App {
  core : state;
  session_state : session;
  rendered : list element
}.

(** The values the widgets hand to one run of the script. *)
Module Ui.
Record inputs := Inputs {
  body_display : string;
  min_date : Datetime.date;
  max_date_option : string;
  days_from_start : nat;
  specific_max_date : Datetime.date;
  dist_unit : string;
  max_dist : string;
  object_type : string;
  limit : Z;
  fetch_data : bool;
  add_trendline : bool
}.
End Ui.

Definition Script (A : Type) : Type := app → result A * app.

#[global] Instance Script_ret : MRet Script := λ A x a, (Done x, a).
#[global] Instance Script_bind : MBind Script := λ A B k m a,
  match m a with
  | (Done x, a') => k x a'
  | (Failed f, a') => (Failed f, a')
  end.

Definition fail {A} (f : failure) : Script A := λ a, (Failed f, a).

(** A computation of the pipeline, run on the page of the script. *)
Definition run_core {A} (m : M A) : Script A :=
  λ a, match m (core a) with
       | (Return x, s) => (Done x, App s (session_state a) (rendered a))
       | (Raise e, s) =>
           (Failed (Exception e), App s (session_state a) (rendered a))
       end.

Definition of_outcome {A} (o : outcome A) : Script A :=
  match o with
  | Return x => mret x
  | Raise e => fail (Exception e)
  end.

Definition render (e : element) : Script unit :=
  λ a, (Done tt, App (core a) (session_state a) (rendered a ++ [e])).

Definition get_session : Script session := λ a, (Done (session_state a), a).

Definition set_session (s : session) : Script unit :=
  λ a, (Done tt, App (core a) s (rendered a)).

(** Reading a local that may not have been assigned. *)
Definition local {A} (name : string) (v : option A) : Script A :=
  match v with
  | Some x => mret x
  | None =>
      fail (Exception (Exc UnboundLocalError
        ("cannot access local variable '" +:+ name
         +:+ "' where it is not associated with a value")))
  end.

(** [d[key]] on a dictionary. *)
Definition subscript {A} (d : option A) (key : string) : Script A :=
  match d with
  | Some x => mret x
  | None => fail (Exception (Exc KeyError key))
  end.

(** [fd.empty]: no rows or no columns. *)
Definition frame_empty (fd : DataFrame) : bool :=
  bool_decide (rows fd = []) || bool_decide (columns fd = []).

(** [fd[labels]] for a list of labels: every label must be a column;
    the result has, label by label, the columns that carry it. The
    message of the [KeyError], which lists the missing labels, is cut
    short. *)
Definition select (fd : DataFrame) (labels : list string) : outcome DataFrame :=
  if bool_decide (Forall (λ c, c ∈ columns fd) labels) then
    let ps := labels ≫= (λ c, positions c (columns fd) 0) in
    Return (Frame ((λ i, default "" (columns fd !! i)) <$> ps)
                  ((λ r, (λ i, cell_at i r) <$> ps) <$> rows fd))
  else Raise (Exc KeyError "not in index").

(** [fd.rename(columns=names)] *)
Definition rename (names : gmap string string) (fd : DataFrame) : DataFrame :=
  Frame ((λ c, default c (names !! c)) <$> columns fd) (rows fd).

Definition table_columns : list string := ["des"; "cd"; "dist"; "v_rel"; "v_inf"].

Definition table_names (dist_unit : string) : gmap string string :=
  list_to_map
    [("des", "🪐 Designation"); ("cd", "📅 Date");
     ("dist", "📏 Distance (" +:+ dist_unit +:+ ")");
     ("v_rel", "⚡ Relative Velocity (km/s)");
     ("v_inf", "♾️ Infinity Velocity (km/s)")].

Section Script.
Variable str_json : payload → string.
Variable net : Requests.network payload.
(** [datetime.today()] *)
Variable today : Datetime.date.
(** Whether [import statsmodels.api] succeeds. *)
Variable statsmodels_installed : bool.
(** The exception [px.scatter] raises on a call, if it raises one. *)
Variable px_scatter_raises : scatter_call → option exc.
(** [fd.to_csv(index=False)] *)
Variable to_csv : DataFrame → string.

(** Lines 78-112. *)
Definition visualize_close_approaches (fd : DataFrame) (body : string)
    (add_trendline : bool) : Script unit :=
  if frame_empty fd then mret tt
  else
    add_trendline ←
      (if add_trendline then
         if statsmodels_installed then mret true
         else
           run_core (st_report (st_warning
             "⚠️ Statsmodels is not installed. Trendline feature is disabled"));;
           mret false
       else mret false);
    let my_trendline := if add_trendline : bool then Some "ols" else None in
    sess ← get_session;
    let call :=
      Scatter fd "cd" "dist" ["des"; "v_rel"; "v_inf"]
        [("cd", "📅 Date");
         ("dist", "📏 Distance (" +:+ default "AU" (s_dist_unit sess) +:+ ")");
         ("des", "🪐 Designation");
         ("v_rel", "⚡ Relative Velocity (km/s)");
         ("v_inf", "∞ Infinity Velocity (km/s)")]
        ("🔭 Close Approached to " +:+ body)
        my_trendline in
    match px_scatter_raises call with
    | Some e => fail (Exception e)
    | None => render (st_plotly_chart call true)
    end.

(** Lines 157-175: the end date, a local that stays unassigned when the
    option is neither of the two. *)
Definition end_date (i : Ui.inputs) (default_end_date : Datetime.date)
  : Script (option string) :=
  if bool_decide (Ui.max_date_option i = "Days from Start Date") then
    match Datetime.add_timedelta (Ui.min_date i) (Ui.days_from_start i) with
    | Some d => mret (Some (Datetime.strftime d))
    | None => fail (OverflowError "date value out of range")
    end
  else if bool_decide (Ui.max_date_option i = "Specific Date") then
    _ ← of_outcome (Datetime.new 2100 12 41);
    mret (Some (Datetime.strftime (Ui.specific_max_date i)))
  else mret None.

(** Lines 214-265: what the button sets off. *)
Definition fetch_action (i : Ui.inputs) (body_code : string)
    (max_date : option string) : Script unit :=
  if Ui.fetch_data i then
    fd ←
      (if bool_decide (Ui.object_type i ∈ ["NEO"; "Comet"]) then
         max_date ← local "max_date" max_date;
         data ← run_core
           (fetch_close_approaches str_json net body_code
              (Datetime.strftime (Ui.min_date i)) max_date (Ui.max_dist i)
              (Ui.dist_unit i) (Ui.limit i) (Ui.object_type i));
         fd ← run_core (parse_data data);
         mret (Some fd)
       else if bool_decide (Ui.object_type i = "Both") then
         max_date ← local "max_date" max_date;
         fd ← run_core
           (both_branch str_json net body_code
              (Datetime.strftime (Ui.min_date i)) max_date (Ui.max_dist i)
              (Ui.dist_unit i) (Ui.limit i));
         mret (Some fd)
       else mret None);
    fd ← local "fd" fd;
    if negb (frame_empty fd) then
      render (st_success
        ("✅ Found " +:+ pretty (length (rows fd)) +:+ " close approaches to **"
         +:+ Ui.body_display i +:+ "**."));;
      set_session (Session (Some fd) (Some (Ui.body_display i)) (Some (Ui.dist_unit i)))
    else
      set_session
        (Session (Some empty_frame) (Some (Ui.body_display i)) (Some (Ui.dist_unit i)))
  else mret tt.

(** Lines 268-304: the table, the download and the chart of the stored
    frame, or a note that there is nothing to show. *)
Definition display (i : Ui.inputs) : Script unit :=
  sess ← get_session;
  if from_option (λ fd, negb (frame_empty fd)) false (s_fd sess) then
    fd ← subscript (s_fd sess) "fd";
    body_display ← subscript (s_body_display sess) "body_display";
    dist_unit ← subscript (s_dist_unit sess) "dist_unit";
    table ← of_outcome (select fd table_columns);
    render (st_dataframe (rename (table_names dist_unit) table));;
    render (st_download_button (to_csv fd));;
    visualize_close_approaches fd body_display (Ui.add_trendline i)
  else if Ui.fetch_data i then
    render (st_info
      "ℹ️ No data available to display. Please adjust your search parameters.")
  else
    render (st_info
      "🔍 Awaiting your search parameters. Use the sidebar to get started!").

(** Lines 116-309. *)
Definition main (i : Ui.inputs) : Script unit :=
  body_code ← subscript (BODY_CODES !! Ui.body_display i) (Ui.body_display i);
  default_end_date ←
    from_option mret (fail (OverflowError "date value out of range"))
      (Datetime.add_timedelta today 60);
  _ ← of_outcome (Datetime.new 1900 1 1);
  _ ← of_outcome (Datetime.new 2100 12 31);
  max_date ← end_date i default_end_date;
  fetch_action i body_code max_date;;
  display i.
End Script.

(** * The vocabulary of the properties *)

(** The state after one more request, and after more messages. *)
Definition issued (s : state) (u : string) (params : gmap string pyobj) : state :=
  State (requests_issued s ++ [(u, params)]) (page s).

Definition reported (s : state) (msgs : list st_call) : state :=
  State (requests_issued s) (page s ++ msgs).

(** What the parameter builder may add to the dictionary literal. *)
Definition flags (params : gmap string pyobj) : option pyobj * option pyobj :=
  (params !! "neo", params !! "comet").

Definition allowed_flags : list (option pyobj * option pyobj) :=
  [(Some (PyStr "true"), None); (None, Some (PyStr "true")); (None, None)].

(** A failure below HTTP: a [requests] error other than [HTTPError]
    (a timeout, a connection or name-resolution error, ...). *)
Definition transport_failure (e : exc) : bool :=
  isinstance e RequestException && negb (isinstance e HTTPError).

Definition parameter_names : list string :=
  ["body"; "date-min"; "date-max"; "dist-max"; "limit"; "neo"; "comet"].

(** A network on which every request times out. *)
Definition timing_out : Requests.network unit :=
  λ _ _, Raise (Exc Timeout "Read timed out.").

(** The timestamp a text stands for, when [to_datetime] accepts it under
    the pattern. *)
Definition parse_date (text : string) : option Timestamp :=
  t ← strptime text; if in_bounds t then Some t else None.

(** The fields [parse_data] coerces to numbers. *)
Definition numeric_fields : list string := ["dist"; "v_rel"; "v_inf"].

(** One value of a record as the row holds it, by the field it belongs
    to: the reading of "zip the field names with each record". *)
Definition typed_cell (field : string) (v : option string) : cell :=
  if bool_decide (field = "cd") then from_option Stamp Missing (v ≫= parse_date)
  else if bool_decide (field ∈ numeric_fields) then to_numeric_cell (of_json v)
  else of_json v.

Definition typed_row (fields : list string) (record : list (option string))
  : list cell :=
  zip_with typed_cell fields record.

(** The date of a record matches the pattern. *)
Definition dates_match (fields : list string) (record : list (option string))
  : Prop :=
  Forall (λ fv, fv.1 = "cd" → is_Some (fv.2 ≫= parse_date)) (zip fields record).

(** A payload with [count = N > 0] and [N] well-formed records: the field
    list names each of the four typed fields, no name twice; every
    record has one value per field; every date matches the pattern. *)
Record well_formed (d : payload) (N : Z) (fields : list string)
    (records : list (list (option string))) : Prop := WellFormed {
  wf_count : get_count d = Some (JInt N);
  wf_positive : (0 < N)%Z;
  wf_fields : get_fields d = Some fields;
  wf_data : get_data d = Some records;
  wf_length : Z.of_nat (length records) = N;
  wf_labels : NoDup fields;
  wf_typed : Forall (λ c, c ∈ fields) ("cd" :: numeric_fields);
  wf_aligned : Forall (λ r, length r = length fields) records;
  wf_dates : Forall (dates_match fields) records
}.

(** What [to_datetime] leaves in a cell when it does not raise. *)
Definition date_cell (x : cell) : cell :=
  match to_datetime_cell x with
  | Return y => y
  | Raise _ => Missing
  end.

(** The payload of the specification's scenario, and two variants: a
    distance that is no number, a date outside the pattern. *)
Definition scenario_fields : list string := ["des"; "cd"; "dist"; "v_rel"; "v_inf"].

Definition scenario (cd dist : string) : payload :=
  Payload (Some (JInt 1)) (Some scenario_fields)
    (Some [[Some "2025 AB"; Some cd; Some dist; Some "7.5"; Some "7.4"]]).

(** The frame of the scenario. *)
Definition scenario_frame : DataFrame :=
  Frame scenario_fields
    [[Str "2025 AB"; Stamp (Ts 2025 1 15 3 20); Num (Decimal 123 (-4));
      Num (Decimal 75 (-1)); Num (Decimal 74 (-1))]].

(** What [parse_data] computes once the count is not zero: the frame of
    the records under the field names, then the four columns coerced one
    after the other. Nothing in it touches the page or the network. *)
Definition typed_frame (fields : list string)
    (records : list (list (option string))) : outcome DataFrame :=
  fd ← DataFrame_of records fields;
  cd ← getitem fd "cd" ≫= to_datetime;
  let fd := setitem fd "cd" cd in
  dist ← getitem fd "dist" ≫= to_numeric_coerce;
  let fd := setitem fd "dist" dist in
  v_rel ← getitem fd "v_rel" ≫= to_numeric_coerce;
  let fd := setitem fd "v_rel" v_rel in
  v_inf ← getitem fd "v_inf" ≫= to_numeric_coerce;
  Return (setitem fd "v_inf" v_inf).

(** A date value [to_datetime] takes without raising: null, blank, or
    text that matches the pattern. *)
Definition date_accepted (v : option string) : Prop :=
  v = None ∨ v = Some "" ∨ is_Some (v ≫= parse_date).



(** A month and a day of it, in any year. *)
Definition calendar_day (d : Datetime.date) : Prop :=
  1 ≤ Datetime.d_month d ≤ 12
  ∧ 1 ≤ Datetime.d_day d
      ≤ Pandas.days_in_month (Datetime.d_year d) (Datetime.d_month d).

(** [d] comes before [e]. *)
Definition date_before (d e : Datetime.date) : Prop :=
  Datetime.d_year d < Datetime.d_year e
  ∨ (Datetime.d_year d = Datetime.d_year e
     ∧ (Datetime.d_month d < Datetime.d_month e
        ∨ (Datetime.d_month d = Datetime.d_month e
           ∧ Datetime.d_day d < Datetime.d_day e))).

(** The three keys of the session go together: where a frame is stored,
    a display name and a unit are stored as well. *)
Definition consistent (s : session) : Prop :=
  is_Some (s_fd s) → is_Some (s_body_display s) ∧ is_Some (s_dist_unit s).

(** A network that answers every request with the scenario's payload. *)
Definition answering (d : payload) : Requests.network payload :=
  λ _ _, Return (Requests.Response None (Some d)).

(** A network on which no connection can be made. *)
Definition unreachable : Requests.network payload :=
  λ _ _, Raise (Exc ConnectionError "Max retries exceeded").

(** The widgets at their defaults on 15 January 2025, but for the
    end-date option and the object type; with a click on the button, and
    without. *)
Definition widgets (max_date_option object_type : string) (fetch_data : bool)
  : Ui.inputs :=
  Ui.Inputs "Earth" (Datetime.Date 2025 1 15) max_date_option 60
    (Datetime.Date 2025 3 16) "AU" "0.05" object_type 100 fetch_data false.

Definition click (max_date_option object_type : string) : Ui.inputs :=
  widgets max_date_option object_type true.

Definition idle : Ui.inputs := widgets "Days from Start Date" "NEO" false.

(** A first run: nothing sent, shown or stored yet. *)
Definition fresh : app := App initial (Session None None None) [].

(** The script of that day on a machine without statsmodels, where
    [px.scatter] draws what it is given. *)
Definition script (net : Requests.network payload) : Ui.inputs → Script unit :=
  main (λ _, "{}") net (Datetime.Date 2025 1 15) false (λ _, None) (λ _, "csv").

(** The message of line 256. *)
Definition found (n : nat) (body_display : string) : element :=
  st_success ("✅ Found " +:+ pretty n +:+ " close approaches to **"
              +:+ body_display +:+ "**.").

(** The session after a click that went through. *)
Definition stored (fd : DataFrame) (i : Ui.inputs) : session :=
  Session (Some fd) (Some (Ui.body_display i)) (Some (Ui.dist_unit i)).

(** * Properties *)

(** Unfolds the sequencing of computations. *)
Ltac run_M :=
  unfold mbind, M_bind, mret, M_ret, try_except, st_report, raise, lift; cbn.

(** ** The fetcher *)

Lemma decode_error_classes :
  isinstance Requests.decode_error ValueError = true
  ∧ isinstance Requests.decode_error RequestException = true
  ∧ isinstance Requests.decode_error HTTPError = false.
Proof. repeat split. Qed.

Lemma HTTPError_is_HTTPError msg : isinstance (Exc HTTPError msg) HTTPError = true.
Proof. reflexivity. Qed.

Section FetcherFacts.
Context {json : Type}.
Variable str_json : json → string.
Variable net : Requests.network json.

Lemma add_object_type_NEO my_params s :
  add_object_type "NEO" my_params s
  = (Return (<["neo" := PyStr "true"]> my_params), s).
Proof. reflexivity. Qed.

Lemma add_object_type_other object_type my_params s :
  object_type ≠ "NEO" →
  add_object_type object_type my_params s
  = (Raise (Exc NameError "name 'object_tye' is not defined"), s).
Proof.
  intros Hne. unfold add_object_type, py_eq.
  rewrite bool_decide_eq_false_2 by congruence.
  reflexivity.
Qed.

Lemma st_report_requests c s : requests_issued (st_report c s).2 = requests_issued s.
Proof. reflexivity. Qed.

(** The first [except] clause, with [response] bound. *)
Lemma handle_HTTPError r e s :
  isinstance e HTTPError = true →
  handle str_json (Some r) e s
  = (Return None,
     reported s
       [st_error ("⚠️ HTTP error occurred: " +:+ exc_msg e);
        match Requests.body_json r with
        | Some error_info => st_error ("🔍 Error Details: " +:+ str_json error_info)
        | None => st_error "🔍 No additional error information provided."
        end]).
Proof.
  intros He. unfold handle. rewrite He.
  unfold Requests.response_json, reported.
  destruct (Requests.body_json r) as [j|]; run_M.
  - by rewrite <- (assoc_L (++)).
  - rewrite (proj1 decode_error_classes). cbn.
    by rewrite <- (assoc_L (++)).
Qed.

(** The second [except] clause. *)
Lemma handle_RequestException response e s :
  isinstance e HTTPError = false →
  isinstance e RequestException = true →
  handle str_json response e s
  = (Return None,
     reported s [st_error ("⚠️ Error fetching data from API: " +:+ exc_msg e)]).
Proof.
  intros Hhttp Hreq. unfold handle. rewrite Hhttp, Hreq. reflexivity.
Qed.

Lemma handle_requests response e s :
  requests_issued (handle str_json response e s).2 = requests_issued s.
Proof.
  destruct (isinstance e HTTPError) eqn:Hhttp.
  - destruct response as [r|].
    + by rewrite handle_HTTPError.
    + unfold handle. rewrite Hhttp. reflexivity.
  - destruct (isinstance e RequestException) eqn:Hreq.
    + by rewrite handle_RequestException.
    + unfold handle. rewrite Hhttp, Hreq. reflexivity.
Qed.

(** The requests one call adds to those already sent. *)
Lemma fetch_requests body_code min_date max_date max_dist dist_unit my_limit
    object_type s :
  requests_issued
    (fetch_close_approaches str_json net body_code min_date max_date max_dist
       dist_unit my_limit object_type s).2
  = requests_issued s ++
    if bool_decide (object_type = "NEO")
    then [(url, <["neo" := PyStr "true"]>
                  (my_params_literal body_code min_date max_date max_dist
                     dist_unit my_limit))]
    else [].
Proof.
  unfold fetch_close_approaches.
  case_bool_decide as Hty.
  - subst object_type. unfold mbind, M_bind at 1.
    rewrite add_object_type_NEO. unfold Requests.get.
    destruct (net _ _) as [r|e].
    + unfold Requests.raise_for_status, Requests.response_json.
      destruct (Requests.status_error r), (Requests.body_json r); cbn -[handle];
        rewrite ?handle_requests; reflexivity.
    + rewrite handle_requests. reflexivity.
  - unfold mbind, M_bind at 1.
    rewrite add_object_type_other by done.
    cbn. by rewrite app_nil_r.
Qed.

(** C1. Called with any object type other than 'NEO' (so with 'Comet'),
    [fetch_close_approaches] raises [NameError] from the comet-flag check:
    the state is the one it was called in, so no request was sent, no
    [comet] flag built, and nothing reported. *)
Theorem fetch_other_than_NEO_raises_NameError
    body_code min_date max_date max_dist dist_unit my_limit object_type s :
  object_type ≠ "NEO" →
  fetch_close_approaches str_json net body_code min_date max_date max_dist
    dist_unit my_limit object_type s
  = (Raise (Exc NameError "name 'object_tye' is not defined"), s).
Proof.
  intros Hne. unfold fetch_close_approaches, mbind, M_bind.
  rewrite (add_object_type_other _ _ _ Hne).
  reflexivity.
Qed.

(** C2. Whatever the arguments, each parameter map a call sends carries
    at most one object-type flag: [neo] with the value 'true', or [comet]
    with the value 'true', or neither; and it has no key besides the five
    of the literal and these two, so no 'both' flag is ever sent. *)
Theorem builder_sends_neo_or_comet_or_neither
    body_code min_date max_date max_dist dist_unit my_limit object_type s :
  ∃ emitted,
    requests_issued
      (fetch_close_approaches str_json net body_code min_date max_date max_dist
         dist_unit my_limit object_type s).2
    = requests_issued s ++ emitted
    ∧ Forall (λ req, flags req.2 ∈ allowed_flags
                     ∧ dom req.2 ⊆@{gset string} list_to_set parameter_names)
             emitted.
Proof.
  eexists. split; [apply fetch_requests|].
  case_bool_decide; [|constructor].
  apply Forall_cons. split; [split|by apply Forall_nil]; cbn [snd].
  - unfold flags, allowed_flags, my_params_literal.
    rewrite lookup_insert_eq.
    rewrite !lookup_insert_ne by done.
    rewrite lookup_empty. apply list_elem_of_here.
  - unfold my_params_literal, parameter_names. cbn [list_to_set foldr].
    rewrite !dom_insert_L, dom_empty_L.
    apply (bool_decide_unpack _). by vm_compute.
Qed.

(** C3. The 'dist-max' entry of the dictionary literal, and of every
    parameter map a call sends, is the magnitude text followed directly by
    the unit text. *)
Theorem dist_max_is_magnitude_then_unit
    body_code min_date max_date max_dist dist_unit my_limit object_type s :
  my_params_literal body_code min_date max_date max_dist dist_unit my_limit
    !! "dist-max" = Some (PyStr (max_dist +:+ dist_unit))
  ∧ ∃ emitted,
      requests_issued
        (fetch_close_approaches str_json net body_code min_date max_date
           max_dist dist_unit my_limit object_type s).2
      = requests_issued s ++ emitted
      ∧ Forall (λ req, req.2 !! "dist-max" = Some (PyStr (max_dist +:+ dist_unit)))
               emitted.
Proof.
  assert (Hlit : my_params_literal body_code min_date max_date max_dist
                   dist_unit my_limit !! "dist-max"
                 = Some (PyStr (max_dist +:+ dist_unit))).
  { unfold my_params_literal.
    rewrite lookup_insert_ne by done. apply lookup_insert_eq. }
  split; [exact Hlit|].
  eexists. split; [apply fetch_requests|].
  case_bool_decide; [|constructor].
  apply Forall_cons. split; [|by apply Forall_nil]. cbn [snd].
  rewrite lookup_insert_ne by done. exact Hlit.
Qed.

(** C9. With the request sent (object type 'NEO') and [requests.get]
    raising nothing but transport errors, every failure makes the fetcher
    return [None], in one of two ways: an error status reports the HTTP
    error and then the decoded error body, or that there is no additional
    information when the body does not decode; a transport error (and a
    body that does not decode under a good status) reports the exception's
    description. A good status with a body that decodes returns the decoded
    payload as it is and reports nothing. *)
Theorem fetch_failure_classes
    body_code min_date max_date max_dist dist_unit my_limit s :
  let params := <["neo" := PyStr "true"]>
                  (my_params_literal body_code min_date max_date max_dist
                     dist_unit my_limit) in
  (∀ e, net url params = Raise e → transport_failure e = true) →
  fetch_close_approaches str_json net body_code min_date max_date max_dist
    dist_unit my_limit "NEO" s
  = match net url params with
    | Raise e =>
        (Return None,
         reported (issued s url params)
           [st_error ("⚠️ Error fetching data from API: " +:+ exc_msg e)])
    | Return r =>
        match Requests.status_error r, Requests.body_json r with
        | Some http_err, Some error_info =>
            (Return None,
             reported (issued s url params)
               [st_error ("⚠️ HTTP error occurred: " +:+ http_err);
                st_error ("🔍 Error Details: " +:+ str_json error_info)])
        | Some http_err, None =>
            (Return None,
             reported (issued s url params)
               [st_error ("⚠️ HTTP error occurred: " +:+ http_err);
                st_error "🔍 No additional error information provided."])
        | None, Some data => (Return (Some data), issued s url params)
        | None, None =>
            (Return None,
             reported (issued s url params)
               [st_error ("⚠️ Error fetching data from API: "
                          +:+ exc_msg Requests.decode_error)])
        end
    end.
Proof.
  intros params Hnet.
  unfold fetch_close_approaches, mbind, M_bind at 1.
  rewrite add_object_type_NEO. fold params.
  unfold Requests.get. cbn [requests_issued page]. fold (issued s url params).
  destruct (net url params) as [r|e] eqn:Hget.
  - destruct r as [[http_err|] [j|]]; run_M;
      rewrite ?handle_HTTPError by apply HTTPError_is_HTTPError;
      reflexivity.
  - specialize (Hnet e eq_refl).
    apply andb_true_iff in Hnet as [Hreq Hhttp].
    apply negb_true_iff in Hhttp.
    by apply handle_RequestException.
Qed.

End FetcherFacts.

(** The branch for 'Both' never gets to combine anything: whatever the
    first call does, the second one raises. *)
Lemma both_branch_raises str_json net
    body_code min_date max_date max_dist dist_unit limit s :
  ∃ e s', both_branch str_json net body_code min_date max_date max_dist
            dist_unit limit s = (Raise e, s').
Proof.
  unfold both_branch. unfold mbind at 1, M_bind at 1.
  destruct (fetch_close_approaches _ _ _ _ _ _ _ _ "NEO" s) as [[data_neo|e] s1].
  - unfold fetch_close_approaches, mbind, M_bind.
    rewrite add_object_type_other by discriminate.
    by eexists _, _.
  - by eexists _, _.
Qed.

Lemma fetch_other_than_NEO_raises_NameError_witness :
  "Comet" ≠ "NEO"
  ∧ fetch_close_approaches (λ _, "None") timing_out
      "Earth" "now" "+60" "0.05" "AU" 100 "Comet" initial
    = (Raise (Exc NameError "name 'object_tye' is not defined"), initial).
Proof.
  split; [discriminate|].
  apply (fetch_other_than_NEO_raises_NameError (λ _, "None") timing_out).
  discriminate.
Defined.

Lemma fetch_failure_classes_witness :
  fetch_close_approaches (λ _, "None") timing_out
    "Earth" "now" "+60" "0.05" "AU" 100 "NEO" initial
  = (Return None,
     reported
       (issued initial url
          (<["neo" := PyStr "true"]>
             (my_params_literal "Earth" "now" "+60" "0.05" "AU" 100)))
       [st_error "⚠️ Error fetching data from API: Read timed out."]).
Proof.
  apply (fetch_failure_classes (λ _, "None") timing_out
           "Earth" "now" "+60" "0.05" "AU" 100 initial).
  intros e [= <-]. reflexivity.
Defined.

(** ** The normalizer *)

Example strptime_scenario :
  strptime "2025-Jan-15 03:20" = Some (Ts 2025 1 15 3 20)
  ∧ strptime "2025-jan-5 3:07" = Some (Ts 2025 1 5 3 7)
  ∧ strptime "2025-Feb-29 03:20" = None
  ∧ strptime "2025-Jan-15 03:20 " = None
  ∧ strptime "2025-01-15 03:20" = None.
Proof. repeat split. Qed.

Example to_float_scenario :
  to_float "0.0123" = Some (Decimal 123 (-4))
  ∧ to_float " -7.50e1 " = Some (Decimal (-75) 0)
  ∧ to_float "-inf" = Some (Infinity true)
  ∧ to_float "N/A" = None
  ∧ to_float "" = None
  ∧ to_float "1.2.3" = None.
Proof. repeat split. Qed.

Lemma positions_absent c labels k : c ∉ labels → positions c labels k = [].
Proof.
  revert k. induction labels as [|l labels IH]; intros k Hc; [done|].
  apply not_elem_of_cons in Hc as [Hne Hc]. cbn.
  rewrite bool_decide_eq_false_2 by congruence. by apply IH.
Qed.

Lemma positions_unique c labels i k :
  NoDup labels → labels !! i = Some c → positions c labels k = [k + i].
Proof.
  revert i k. induction labels as [|l labels IH]; intros i k Hnd Hi; [done|].
  apply NoDup_cons in Hnd as [Hl Hnd]. destruct i as [|i]; cbn in *.
  - injection Hi as ->. rewrite bool_decide_eq_true_2 by done.
    rewrite positions_absent by done. f_equal. lia.
  - rewrite bool_decide_eq_false_2.
    + rewrite (IH i (S k)) by done. f_equal. lia.
    + intros ->. apply Hl. by eapply list_elem_of_lookup_2.
Qed.

Lemma max_list_constant (n : nat) (ns : list nat) :
  ns ≠ [] → Forall (λ m, m = n) ns → max_list ns = n.
Proof.
  intros Hne Hall. induction Hall as [|m ns -> Hall IH]; [done|].
  cbn. destruct ns as [|m' ns]; [cbn; lia|].
  rewrite IH by done. lia.
Qed.

Lemma DataFrame_of_aligned records fields :
  records ≠ [] →
  Forall (λ r, length r = length fields) records →
  DataFrame_of records fields = Return (Frame fields (raw_rows records)).
Proof.
  intros Hne Hal. unfold DataFrame_of.
  destruct records as [|r records]; [done|].
  rewrite (max_list_constant (length fields)).
  - rewrite bool_decide_eq_true_2 by done. do 2 f_equal.
    rewrite <- (list_fmap_id (raw_rows (r :: records))) at 2.
    apply Forall_fmap_ext_1, Forall_fmap.
    eapply Forall_impl; [exact Hal|]. intros r' Hr'. cbn.
    unfold pad. rewrite length_fmap, Hr', Nat.sub_diag. apply app_nil_r.
  - done.
  - apply Forall_fmap. exact Hal.
Qed.

Lemma getitem_unique fields rws c i :
  positions c fields 0 = [i] →
  getitem (Frame fields rws) c = Return (inl (cell_at i <$> rws)).
Proof. intros H. unfold getitem. cbn. by rewrite H. Qed.

Lemma update_alter (f : cell → cell) i (r : list cell) :
  <[i := f (cell_at i r)]> r = alter f i r.
Proof.
  unfold cell_at. revert i. induction r as [|x r IH]; intros [|i]; cbn; try done.
  f_equal. apply IH.
Qed.

Lemma setitem_unique fields rws c i (f : cell → cell) :
  positions c fields 0 = [i] →
  setitem (Frame fields rws) c (f <$> (cell_at i <$> rws))
  = Frame fields (alter f i <$> rws).
Proof.
  intros H. unfold setitem. cbn. rewrite H. f_equal.
  rewrite <- list_fmap_compose, zip_with_fmap_r, zip_with_diag.
  apply list_fmap_ext. intros _ r _. cbn. apply update_alter.
Qed.

Lemma to_datetime_cells_returns v :
  Forall (λ x, ∃ y, to_datetime_cell x = Return y) v →
  to_datetime_cells v = Return (date_cell <$> v).
Proof.
  induction 1 as [|x v [y Hy] _ IH]; [done|].
  cbn. unfold date_cell at 1. rewrite Hy, IH. reflexivity.
Qed.

Lemma to_datetime_cells_raises v :
  Exists (λ x, ∃ e, to_datetime_cell x = Raise e) v →
  ∃ e, to_datetime_cells v = Raise e ∧ isinstance e ValueError = true.
Proof.
  induction v as [|x v IH]; intros Hex; [by apply Exists_nil in Hex|].
  cbn. destruct (to_datetime_cell x) as [y|e] eqn:Hx.
  - apply Exists_cons in Hex as [[e He]|Hex]; [congruence|].
    destruct (IH Hex) as (e & -> & Hcls). by exists e.
  - exists e. split; [done|].
    destruct x as [s| | |]; cbn in Hx; try discriminate.
    + destruct (_ || _); [discriminate|].
      destruct (strptime s) as [t|]; [destruct (in_bounds t); [discriminate|]|];
        by injection Hx as <-.
    + by injection Hx as <-.
Qed.

Lemma date_cell_of_json v :
  date_cell (of_json v) = from_option Stamp Missing (v ≫= parse_date).
Proof.
  destruct v as [s|]; [|done]. unfold date_cell, parse_date. cbn.
  case_bool_decide as Hempty; cbn.
  { by subst s. }
  case_bool_decide as Hnat; cbn.
  { unfold nat_strings in Hnat.
    repeat (apply elem_of_cons in Hnat as [->|Hnat]; [by vm_compute|]).
    by apply elem_of_nil in Hnat. }
  destruct (strptime s) as [t|]; [|done]. cbn. by destruct (in_bounds t).
Qed.

(** Coercing the four columns one after the other gives each record the
    row that [typed_row] describes. *)
Lemma columnwise_typed_row fields r i_cd i_dist i_v_rel i_v_inf :
  NoDup fields →
  fields !! i_cd = Some "cd" →
  fields !! i_dist = Some "dist" →
  fields !! i_v_rel = Some "v_rel" →
  fields !! i_v_inf = Some "v_inf" →
  length r = length fields →
  alter to_numeric_cell i_v_inf
    (alter to_numeric_cell i_v_rel
       (alter to_numeric_cell i_dist
          (alter date_cell i_cd (of_json <$> r))))
  = typed_row fields r.
Proof.
  intros Hnd Hcd Hdist Hrel Hinf Hlen. apply list_eq. intros j.
  unfold typed_row. rewrite lookup_zip_with.
  destruct (fields !! j) as [c|] eqn:Hc; cbn.
  2: { apply lookup_ge_None in Hc.
       rewrite !list_lookup_alter.
       repeat case_decide; subst;
         rewrite ?list_lookup_alter_ne, ?list_lookup_fmap by congruence;
         try (apply lookup_lt_Some in Hcd; lia);
         try (apply lookup_lt_Some in Hdist; lia);
         try (apply lookup_lt_Some in Hrel; lia);
         try (apply lookup_lt_Some in Hinf; lia).
       rewrite (proj2 (lookup_ge_None r j)) by lia. done. }
  destruct (r !! j) as [v|] eqn:Hv; cbn.
  2: { apply lookup_ge_None in Hv. apply lookup_lt_Some in Hc. lia. }
  assert (Hj : ∀ i c', fields !! i = Some c' → c = c' → i = j).
  { intros i c' Hi <-. by eapply NoDup_lookup. }
  unfold typed_cell, numeric_fields.
  destruct (decide (j = i_cd)) as [->|Hn1].
  { simplify_eq. rewrite bool_decide_eq_true_2 by done.
    rewrite !list_lookup_alter_ne by congruence.
    rewrite list_lookup_alter_eq, list_lookup_fmap, Hv. cbn.
    by rewrite date_cell_of_json. }
  destruct (decide (j = i_dist)) as [->|Hn2].
  { simplify_eq. rewrite !list_lookup_alter_ne by congruence.
    rewrite list_lookup_alter_eq, list_lookup_alter_ne by congruence.
    by rewrite list_lookup_fmap, Hv. }
  destruct (decide (j = i_v_rel)) as [->|Hn3].
  { simplify_eq. rewrite !list_lookup_alter_ne by congruence.
    rewrite list_lookup_alter_eq, !list_lookup_alter_ne by congruence.
    by rewrite list_lookup_fmap, Hv. }
  destruct (decide (j = i_v_inf)) as [->|Hn4].
  { simplify_eq.
    rewrite list_lookup_alter_eq, !list_lookup_alter_ne by congruence.
    by rewrite list_lookup_fmap, Hv. }
  rewrite !list_lookup_alter_ne by congruence.
  rewrite list_lookup_fmap, Hv. cbn.
  rewrite bool_decide_eq_false_2 by (intros ->; by apply Hn1, eq_sym, (Hj _ _ Hcd)).
  rewrite bool_decide_eq_false_2; [done|].
  intros Hin.
  repeat (apply elem_of_cons in Hin as [->|Hin]);
    [apply Hn2|apply Hn3|apply Hn4|by apply elem_of_nil in Hin];
    symmetry; eauto.
Qed.

Lemma dates_match_cell fields r i :
  dates_match fields r → fields !! i = Some "cd" → length r = length fields →
  ∃ s t, r !! i = Some (Some s) ∧ parse_date s = Some t.
Proof.
  intros Hd Hi Hlen.
  destruct (r !! i) as [v|] eqn:Hv.
  2: { apply lookup_ge_None in Hv. apply lookup_lt_Some in Hi. lia. }
  assert (Hz : zip fields r !! i = Some ("cd", v)).
  { rewrite lookup_zip_with, Hi, Hv. done. }
  destruct (Forall_lookup_1 _ _ _ _ Hd Hz eq_refl) as [t Ht]. cbn in Ht.
  destruct v as [s|]; [|done]. by exists s, t.
Qed.

Lemma to_datetime_cell_matching s t :
  parse_date s = Some t → to_datetime_cell (Str s) = Return (Stamp t).
Proof.
  intros Hs. pose proof (date_cell_of_json (Some s)) as Hd.
  cbn in Hd. rewrite Hs in Hd. cbn in Hd.
  unfold date_cell in Hd. unfold parse_date in Hs. cbn in *.
  destruct (_ || _); [done|].
  destruct (strptime s) as [t'|]; [|done]. cbn in Hs.
  destruct (in_bounds t'); [|done]. by injection Hs as ->.
Qed.

(** On a well-formed payload [parse_data] returns, reports nothing, and
    the frame holds the typed rows of the records, in their order, under
    the field names. *)
Lemma parse_data_well_formed d N fields records s :
  well_formed d N fields records →
  parse_data (Some d) s
  = (Return (Frame fields (typed_row fields <$> records)), s).
Proof.
  intros [Hcount Hpos Hfields Hdata Hlen Hnd Hty Hal Hdates].
  unfold parse_data. rewrite Hcount, Hfields, Hdata. cbn [from_option id eq_int].
  rewrite (proj2 (Z.eqb_neq N 0)) by lia.
  assert (Hne : records ≠ []) by (intros ->; cbn in Hlen; lia).
  rewrite DataFrame_of_aligned by done.
  unfold numeric_fields in Hty.
  apply Forall_cons in Hty as [[i_cd Hcd]%list_elem_of_lookup_1 Hty].
  apply Forall_cons in Hty as [[i_dist Hdist]%list_elem_of_lookup_1 Hty].
  apply Forall_cons in Hty as [[i_v_rel Hrel]%list_elem_of_lookup_1 Hty].
  apply Forall_cons in Hty as [[i_v_inf Hinf]%list_elem_of_lookup_1 _].
  pose proof (positions_unique _ _ _ 0 Hnd Hcd) as Pcd.
  pose proof (positions_unique _ _ _ 0 Hnd Hdist) as Pdist.
  pose proof (positions_unique _ _ _ 0 Hnd Hrel) as Prel.
  pose proof (positions_unique _ _ _ 0 Hnd Hinf) as Pinf.
  cbn [Nat.add] in *.
  run_M.
  rewrite (getitem_unique _ _ _ _ Pcd). cbn.
  rewrite to_datetime_cells_returns.
  2: { apply Forall_fmap, Forall_fmap.
       assert (Hboth : Forall (λ r, length r = length fields
                                    ∧ dates_match fields r) records)
         by (by apply Forall_and).
       eapply Forall_impl; [exact Hboth|].
       intros r [Hr Hd]. cbn.
       destruct (dates_match_cell _ _ _ Hd Hcd Hr) as (s' & t & Hs' & Ht).
       exists (Stamp t). unfold cell_at. rewrite list_lookup_fmap, Hs'. cbn.
       by apply to_datetime_cell_matching. }
  rewrite (setitem_unique _ _ _ _ _ Pcd).
  rewrite (getitem_unique _ _ _ _ Pdist). cbn.
  rewrite (setitem_unique _ _ _ _ _ Pdist).
  rewrite (getitem_unique _ _ _ _ Prel). cbn.
  rewrite (setitem_unique _ _ _ _ _ Prel).
  rewrite (getitem_unique _ _ _ _ Pinf). cbn.
  rewrite (setitem_unique _ _ _ _ _ Pinf).
  do 3 f_equal. unfold raw_rows.
  rewrite <- !list_fmap_compose.
  apply Forall_fmap_ext_1.
  eapply Forall_impl; [exact Hal|]. intros r Hr. cbn.
  by apply columnwise_typed_row.
Qed.

(** A record whose date is text outside the pattern, and not one of the
    blank or not-a-time words, makes [parse_data] raise [ValueError]. *)
Lemma parse_data_date_mismatch d N fields records record i text s :
  get_count d = Some (JInt N) → (0 < N)%Z →
  get_fields d = Some fields → get_data d = Some records →
  NoDup fields → Forall (λ r, length r = length fields) records →
  record ∈ records → fields !! i = Some "cd" →
  record !! i = Some (Some text) →
  strptime text = None → text ≠ "" → text ∉ nat_strings →
  ∃ e, parse_data (Some d) s = (Raise e, s) ∧ isinstance e ValueError = true.
Proof.
  intros Hcount Hpos Hfields Hdata Hnd Hal Hin Hcd Hrec Hno Hne Hnat.
  unfold parse_data. rewrite Hcount, Hfields, Hdata. cbn [from_option id eq_int].
  rewrite (proj2 (Z.eqb_neq N 0)) by lia.
  rewrite DataFrame_of_aligned; [|by intros ->; apply elem_of_nil in Hin|done].
  pose proof (positions_unique _ _ _ 0 Hnd Hcd) as Pcd. cbn [Nat.add] in Pcd.
  run_M. rewrite (getitem_unique _ _ _ _ Pcd). cbn.
  destruct (to_datetime_cells_raises (cell_at i <$> raw_rows records))
    as (e & -> & Hcls); [|by exists e].
  apply Exists_fmap, Exists_fmap, Exists_exists. exists record. split; [done|].
  cbn. unfold cell_at. rewrite list_lookup_fmap, Hrec. cbn.
  rewrite !bool_decide_eq_false_2 by done. cbn. rewrite Hno. by eexists.
Qed.

(** C4. When the payload is absent, or is a payload whose [count] is
    missing or zero, [parse_data] returns the empty frame, which has no
    rows; it raises nothing, and what it puts on the page is one warning,
    no error. *)
Theorem parse_data_absent_or_zero_count data s :
  (data = None
   ∨ ∃ d, data = Some d ∧ (get_count d = None ∨ get_count d = Some (JInt 0))) →
  parse_data data s
  = (Return empty_frame,
     reported s
       [st_warning "⚠️ No close approached found for the given parameters."])
  ∧ rows empty_frame = []
  ∧ Forall (λ c, is_st_error c = false)
      [st_warning "⚠️ No close approached found for the given parameters."].
Proof.
  intros Hdata. split; [|split; [done|by repeat constructor]].
  destruct Hdata as [->|(d & -> & [Hc|Hc])]; [done| |];
    unfold parse_data; by rewrite Hc.
Qed.

(** C5. For a payload with [count = N > 0] and [N] well-formed records,
    [parse_data] returns a frame with exactly [N] rows, and its rows are
    the typed rows of the records in the order of the records. *)
Theorem parse_data_one_row_per_record d N fields records s :
  well_formed d N fields records →
  ∃ fd, parse_data (Some d) s = (Return fd, s)
        ∧ Z.of_nat (length (rows fd)) = N
        ∧ columns fd = fields
        ∧ rows fd = typed_row fields <$> records.
Proof.
  intros Hwf. eexists. split; [exact (parse_data_well_formed _ _ _ _ _ Hwf)|].
  cbn. rewrite length_fmap. by destruct Hwf.
Qed.


Lemma scenario_well_formed dist :
  well_formed (scenario "2025-Jan-15 03:20" dist) 1 scenario_fields
    [[Some "2025 AB"; Some "2025-Jan-15 03:20"; Some dist; Some "7.5"; Some "7.4"]].
Proof.
  constructor; try done.
  - apply (bool_decide_unpack _). by vm_compute.
  - apply (bool_decide_unpack _). by vm_compute.
  - by repeat constructor.
  - apply Forall_singleton. unfold dates_match, scenario_fields. cbn [zip_with].
    repeat apply Forall_cons_2; try apply Forall_nil_2; cbn [fst snd];
      try discriminate.
    intros _. exists (Ts 2025 1 15 3 20). by vm_compute.
Qed.

(** C10. There is a payload with [count = 1] whose only defect is a date
    outside the pattern, and on it [parse_data] raises a [ValueError],
    leaving the state as it was; the same payload with the defect moved to
    the distance returns its row with the distance missing. *)
Theorem date_coercion_does_not_recover :
  ∃ text,
    strptime text = None ∧ to_float text = None
    ∧ (∀ s, ∃ e, parse_data (Some (scenario text "0.0123")) s = (Raise e, s)
                 ∧ isinstance e ValueError = true)
    ∧ (∀ s, ∃ stamp,
         parse_data (Some (scenario "2025-Jan-15 03:20" text)) s
         = (Return (Frame scenario_fields
                      [[Str "2025 AB"; Stamp stamp; Missing;
                        Num (Decimal 75 (-1)); Num (Decimal 74 (-1))]]), s)).
Proof.
  exists "N/A". do 2 (split; [by vm_compute|]). split; intros s.
  - eapply (parse_data_date_mismatch _ 1 scenario_fields _ _ 1 "N/A");
      try done.
    + apply (bool_decide_unpack _). by vm_compute.
    + by repeat constructor.
    + apply list_elem_of_here.
    + reflexivity.
    + apply (bool_decide_unpack _). by vm_compute.
  - exists (Ts 2025 1 15 3 20).
    by rewrite (parse_data_well_formed _ _ _ _ _ (scenario_well_formed "N/A")).
Qed.

Lemma parse_data_absent_or_zero_count_witness :
  parse_data (Some (Payload (Some (JInt 0)) None None)) initial
  = (Return empty_frame,
     reported initial
       [st_warning "⚠️ No close approached found for the given parameters."])
  ∧ rows empty_frame = []
  ∧ Forall (λ c, is_st_error c = false)
      [st_warning "⚠️ No close approached found for the given parameters."].
Proof.
  apply (parse_data_absent_or_zero_count
           (Some (Payload (Some (JInt 0)) None None)) initial).
  right. eexists. split; [reflexivity|]. right. reflexivity.
Defined.

Lemma parse_data_one_row_per_record_witness :
  ∃ fd, parse_data (Some (scenario "2025-Jan-15 03:20" "0.0123")) initial
        = (Return fd, initial)
        ∧ Z.of_nat (length (rows fd)) = 1%Z
        ∧ columns fd = scenario_fields
        ∧ rows fd
          = typed_row scenario_fields
              <$> [[Some "2025 AB"; Some "2025-Jan-15 03:20"; Some "0.0123";
                    Some "7.5"; Some "7.4"]].
Proof.
  apply (parse_data_one_row_per_record _ _ _ _ initial
           (scenario_well_formed "0.0123")).
Defined.


(** ** The combiner *)

(** [keep_first] looks at [seen] only to test membership. *)
Lemma keep_first_ext seen seen' l :
  (∀ r, r ∈ seen ↔ r ∈ seen') → keep_first seen l = keep_first seen' l.
Proof.
  revert seen seen'. induction l as [|r l IH]; intros seen seen' Heq; [done|].
  cbn. rewrite (bool_decide_ext _ _ (Heq r)).
  case_bool_decide; [by apply IH|].
  f_equal. apply IH. intros r'. rewrite !elem_of_cons. by rewrite Heq.
Qed.

(** Starting with rows already seen amounts to filtering them out of
    what a start from nothing keeps. *)
Lemma keep_first_filter seen l :
  keep_first seen l = filter (λ r, r ∉ seen) (keep_first [] l).
Proof.
  revert seen. induction l as [|r l IH]; intros seen; [done|].
  cbn. rewrite (bool_decide_eq_false_2 (r ∈ [])) by apply not_elem_of_nil.
  rewrite (IH [r]).
  case_bool_decide as Hr.
  - rewrite filter_cons_False by (by intros []).
    rewrite list_filter_filter, IH.
    apply list_filter_iff. intros r'. split; [|tauto].
    intros Hr'. split; [done|]. rewrite list_elem_of_singleton. by intros ->.
  - rewrite filter_cons_True by done. f_equal.
    rewrite list_filter_filter, (IH (r :: seen)).
    apply list_filter_iff. intros r'.
    rewrite not_elem_of_cons, list_elem_of_singleton. tauto.
Qed.

Lemma keep_first_sublist seen l : keep_first seen l `sublist_of` l.
Proof.
  revert seen. induction l as [|r l IH]; intros seen; [done|].
  cbn. case_bool_decide; [apply sublist_cons|apply sublist_skip]; apply IH.
Qed.

(** Rows without duplicates that were not seen all stay. *)
Lemma keep_first_app a b seen :
  NoDup a → (∀ r, r ∈ a → r ∉ seen) →
  keep_first seen (a ++ b) = a ++ keep_first (a ++ seen) b.
Proof.
  revert seen. induction a as [|r a IH]; intros seen Hnd Hseen; [done|].
  apply NoDup_cons in Hnd as [Hr Hnd]. cbn.
  rewrite bool_decide_eq_false_2 by (apply Hseen, list_elem_of_here).
  f_equal. rewrite IH; [|done|].
  - f_equal. apply keep_first_ext. intros r'.
    rewrite !elem_of_app, !elem_of_cons, elem_of_app. tauto.
  - intros r' Hr'. rewrite not_elem_of_cons. split.
    + by intros ->.
    + by apply Hseen, list_elem_of_further.
Qed.

(** Deduplicating [a] followed by [b], when [a] has no duplicates. *)
Lemma keep_first_after a b :
  NoDup a →
  keep_first [] (a ++ b) = a ++ filter (λ r, r ∉ a) (keep_first [] b).
Proof.
  intros Hnd. rewrite keep_first_app by (done || intros; apply not_elem_of_nil).
  f_equal. rewrite keep_first_filter. apply list_filter_iff. intros r.
  by rewrite app_nil_r.
Qed.

Lemma filter_none_of_its_own (l l' : list (list cell)) :
  l' ⊆ l → filter (λ r, r ∉ l) l' = [].
Proof.
  induction l' as [|x l' IH]; intros Hsub; [done|].
  rewrite filter_cons_False.
  - apply IH. intros y Hy. apply Hsub. by apply list_elem_of_further.
  - intros Hx. apply Hx, Hsub, list_elem_of_here.
Qed.

Lemma filter_nothing_seen (l : list (list cell)) : filter (λ r, r ∉ []) l = l.
Proof.
  induction l as [|r l IH]; [done|].
  rewrite filter_cons_True by apply not_elem_of_nil. by f_equal.
Qed.

Lemma keep_first_NoDup a : NoDup a → keep_first [] a = a.
Proof.
  intros Hnd. rewrite <- (app_nil_r a) at 1.
  rewrite keep_first_after by done. cbn. apply app_nil_r.
Qed.

(** C7. For a frame whose rows are pairwise different, combining the
    frame with itself gives the frame back: every row of the second
    operand repeats a row of the first, and goes. *)
Theorem combine_with_itself fd :
  NoDup (rows fd) → combine fd fd = Return fd.
Proof.
  intros Hnd. unfold combine, concat. destruct fd as [cols rws]. cbn in *.
  case_bool_decide as Hempty.
  - injection Hempty as -> ->. reflexivity.
  - rewrite bool_decide_eq_true_2 by done. cbn.
    unfold drop_duplicates. cbn. do 2 f_equal.
    rewrite keep_first_after by done.
    rewrite keep_first_NoDup by done.
    rewrite filter_none_of_its_own by done. apply app_nil_r.
Qed.

(** C8 as it stands, for any first operand, fails where the first
    operand repeats a row: the repetition goes as well. Two equal rows, combined with a
    frame without rows over the same column, leave one row. *)
Lemma combine_drops_repeats_of_first_operand :
  ∃ fd,
    combine (Frame ["des"] [[Str "2025 AB"]; [Str "2025 AB"]]) (Frame ["des"] [])
    = Return fd
    ∧ take (length (rows (Frame ["des"] [[Str "2025 AB"]; [Str "2025 AB"]])))
        (rows fd)
      ≠ rows (Frame ["des"] [[Str "2025 AB"]; [Str "2025 AB"]]).
Proof.
  exists (Frame ["des"] [[Str "2025 AB"]]). split; [by vm_compute|].
  cbn. discriminate.
Qed.

(** C8, amended. When the rows of the first operand are pairwise
    different, and the operands have the same columns or one of them is
    the empty frame, the result starts with the rows of the first operand
    as they are and in their order; the rest is, in the order of the
    second operand, its rows that repeat neither a row of the first
    operand nor an earlier row of the second. *)
Theorem combine_keeps_first_operand a b :
  NoDup (rows a) →
  columns a = columns b ∨ a = empty_frame ∨ b = empty_frame →
  ∃ fd,
    combine a b = Return fd
    ∧ take (length (rows a)) (rows fd) = rows a
    ∧ drop (length (rows a)) (rows fd)
      = filter (λ r, r ∉ rows a) (keep_first [] (rows b))
    ∧ drop (length (rows a)) (rows fd) `sublist_of` rows b.
Proof.
  intros Hnd Hcols.
  assert (Hsub : filter (λ r, r ∉ rows a) (keep_first [] (rows b))
                 `sublist_of` rows b).
  { etrans; [apply sublist_filter|apply keep_first_sublist]. }
  assert (Hrows : ∃ fd, combine a b = Return fd
            ∧ rows fd = rows a
                        ++ filter (λ r, r ∉ rows a) (keep_first [] (rows b))).
  { unfold combine, concat.
    case_bool_decide as Ha.
    { subst a. eexists. split; [reflexivity|]. cbn.
      by rewrite filter_nothing_seen. }
    case_bool_decide as Hb.
    { subst b. eexists. split; [reflexivity|]. cbn.
      rewrite keep_first_NoDup by done. by rewrite app_nil_r. }
    destruct Hcols as [Hcols|[?|?]]; [|done|done].
    rewrite bool_decide_eq_true_2 by done.
    eexists. split; [reflexivity|]. cbn. by apply keep_first_after. }
  destruct Hrows as (fd & Hfd & Hrows). exists fd.
  rewrite Hrows, take_app_length, drop_app_length. done.
Qed.

Lemma combine_with_itself_witness :
  combine (Frame ["des"] [[Str "2025 AB"]; [Str "2025 CD"]])
          (Frame ["des"] [[Str "2025 AB"]; [Str "2025 CD"]])
  = Return (Frame ["des"] [[Str "2025 AB"]; [Str "2025 CD"]]).
Proof.
  apply (combine_with_itself (Frame ["des"] [[Str "2025 AB"]; [Str "2025 CD"]])).
  apply (bool_decide_unpack _). by vm_compute.
Defined.

Lemma combine_keeps_first_operand_witness :
  ∃ fd,
    combine (Frame ["des"] [[Str "2025 AB"]; [Str "2025 CD"]])
            (Frame ["des"] [[Str "2025 CD"]; [Str "C/2025 X1"]; [Str "C/2025 X1"]])
    = Return fd
    ∧ take 2 (rows fd) = [[Str "2025 AB"]; [Str "2025 CD"]]
    ∧ drop 2 (rows fd)
      = filter (λ r, r ∉ [[Str "2025 AB"]; [Str "2025 CD"]])
          (keep_first [] [[Str "2025 CD"]; [Str "C/2025 X1"]; [Str "C/2025 X1"]])
    ∧ drop 2 (rows fd)
      `sublist_of` [[Str "2025 CD"]; [Str "C/2025 X1"]; [Str "C/2025 X1"]].
Proof.
  apply (combine_keeps_first_operand
           (Frame ["des"] [[Str "2025 AB"]; [Str "2025 CD"]])
           (Frame ["des"] [[Str "2025 CD"]; [Str "C/2025 X1"]; [Str "C/2025 X1"]])).
  - apply (bool_decide_unpack _). by vm_compute.
  - left. reflexivity.
Defined.

(** * Further properties *)

(** ** The fetcher, whatever the network does *)

Section FetcherAnyNetwork.
Context {json : Type}.
Variable str_json : json → string.
Variable net : Requests.network json.

(** What the two [except] clauses can do: return [None] or raise; they
    add error messages only, two at most, and issue nothing. *)
Lemma handle_cases response e s :
  ∃ o msgs,
    handle str_json response e s = (o, reported s msgs)
    ∧ (o = Return None ∨ ∃ e', o = Raise e')
    ∧ Forall (λ c, is_st_error c = true) msgs
    ∧ length msgs ≤ 2.
Proof.
  destruct (isinstance e HTTPError) eqn:Hhttp.
  - destruct response as [r|].
    + rewrite handle_HTTPError by done.
      eexists _, _. split; [done|]. split; [by left|]. split; [|done].
      repeat constructor. by destruct (Requests.body_json r).
    + unfold handle. rewrite Hhttp. run_M.
      eexists _, [_]. split; [done|]. split; [by right; eexists|].
      split; [by repeat constructor|cbn; lia].
  - destruct (isinstance e RequestException) eqn:Hreq.
    + rewrite handle_RequestException by done.
      eexists _, [_]. split; [done|]. split; [by left|].
      split; [by repeat constructor|cbn; lia].
    + unfold handle. rewrite Hhttp, Hreq. run_M.
      exists (Raise e), []. unfold reported. rewrite app_nil_r.
      split; [by destruct s|]. split; [by right; eexists|].
      split; [constructor|cbn; lia].
Qed.

(** X1. One call issues at most one request, with no retry whatever the
    outcome: exactly one when the object type is 'NEO', none otherwise;
    and a request goes to the one fixed address. *)
Theorem fetch_issues_one_request_or_none
    body_code min_date max_date max_dist dist_unit my_limit object_type s :
  ∃ emitted,
    requests_issued
      (fetch_close_approaches str_json net body_code min_date max_date max_dist
         dist_unit my_limit object_type s).2
    = requests_issued s ++ emitted
    ∧ length emitted = (if bool_decide (object_type = "NEO") then 1 else 0)
    ∧ Forall (λ req, req.1 = "https://ssd-api.jpl.nasa.gov/cad.api") emitted.
Proof.
  eexists. split; [apply fetch_requests|].
  case_bool_decide; split; try done; by repeat constructor.
Qed.

(** X2. The request of a call carries the body code, the two dates and
    the limit as they were given, the limit still an integer, and has
    exactly six parameters. *)
Theorem request_carries_the_arguments
    body_code min_date max_date max_dist dist_unit my_limit object_type s :
  ∃ emitted,
    requests_issued
      (fetch_close_approaches str_json net body_code min_date max_date max_dist
         dist_unit my_limit object_type s).2
    = requests_issued s ++ emitted
    ∧ Forall (λ req,
        req.2 !! "body" = Some (PyStr body_code)
        ∧ req.2 !! "date-min" = Some (PyStr min_date)
        ∧ req.2 !! "date-max" = Some (PyStr max_date)
        ∧ req.2 !! "limit" = Some (PyInt my_limit)
        ∧ dom req.2 =@{gset string}
            list_to_set ["body"; "date-min"; "date-max"; "dist-max"; "limit"; "neo"])
      emitted.
Proof.
  eexists. split; [apply fetch_requests|].
  case_bool_decide; [|constructor].
  apply Forall_cons. split; [|by apply Forall_nil]. cbn [snd].
  unfold my_params_literal.
  split; [by rewrite !lookup_insert_ne, lookup_insert_eq by done|].
  split; [by rewrite !lookup_insert_ne, lookup_insert_eq by done|].
  split; [by rewrite !lookup_insert_ne, lookup_insert_eq by done|].
  split; [by rewrite lookup_insert_ne, lookup_insert_eq by done|].
  rewrite !dom_insert_L, dom_empty_L. cbn [list_to_set foldr].
  apply (bool_decide_unpack _). by vm_compute.
Qed.

(** The call for 'NEO', by what the network does. *)
Lemma fetch_NEO_unfold body_code min_date max_date max_dist dist_unit my_limit s :
  let params := <["neo" := PyStr "true"]>
                  (my_params_literal body_code min_date max_date max_dist
                     dist_unit my_limit) in
  fetch_close_approaches str_json net body_code min_date max_date max_dist
    dist_unit my_limit "NEO" s
  = match net url params with
    | Raise e => handle str_json None e (issued s url params)
    | Return r =>
        match Requests.status_error r with
        | Some msg => handle str_json (Some r) (Exc HTTPError msg) (issued s url params)
        | None =>
            match Requests.body_json r with
            | Some data => (Return (Some data), issued s url params)
            | None => handle str_json (Some r) Requests.decode_error
                        (issued s url params)
            end
        end
    end.
Proof.
  intros params.
  unfold fetch_close_approaches, mbind, M_bind at 1.
  rewrite add_object_type_NEO. fold params.
  unfold Requests.get. cbn [requests_issued page]. fold (issued s url params).
  destruct (net url params) as [r|e]; [|done].
  by destruct r as [[msg|] [j|]].
Qed.

(** The trace of a call, whatever it does: one request at most, and
    error messages only, two at most. *)
Lemma fetch_trace body_code min_date max_date max_dist dist_unit my_limit
    object_type s :
  ∃ emitted msgs,
    requests_issued
      (fetch_close_approaches str_json net body_code min_date max_date max_dist
         dist_unit my_limit object_type s).2
    = requests_issued s ++ emitted
    ∧ page (fetch_close_approaches str_json net body_code min_date max_date
              max_dist dist_unit my_limit object_type s).2
      = page s ++ msgs
    ∧ length emitted ≤ 1
    ∧ Forall (λ c, is_st_error c = true) msgs
    ∧ length msgs ≤ 2.
Proof.
  assert (Hh : ∀ response e u params,
             ∃ emitted msgs,
               requests_issued (handle str_json response e (issued s u params)).2
               = requests_issued s ++ emitted
               ∧ page (handle str_json response e (issued s u params)).2
                 = page s ++ msgs
               ∧ length emitted ≤ 1
               ∧ Forall (λ c, is_st_error c = true) msgs ∧ length msgs ≤ 2).
  { intros response e u params.
    destruct (handle_cases response e (issued s u params))
      as (o & msgs & -> & _ & Herr & Hlen).
    by exists [(u, params)], msgs. }
  destruct (decide (object_type = "NEO")) as [->|Hne].
  - rewrite fetch_NEO_unfold.
    destruct (net url _) as [r|e]; [|by apply Hh].
    destruct (Requests.status_error r) as [msg|]; [by apply Hh|].
    destruct (Requests.body_json r) as [j|]; [|by apply Hh].
    eexists [_], []. cbn. rewrite app_nil_r.
    split; [done|]. split; [done|]. split; [lia|]. split; [constructor|lia].
  - unfold fetch_close_approaches, mbind, M_bind.
    rewrite add_object_type_other by done.
    exists [], []. cbn. rewrite !app_nil_r.
    split; [done|]. split; [done|]. split; [lia|]. split; [constructor|lia].
Qed.

Lemma HTTPError_is_RequestException e :
  isinstance e HTTPError = true → isinstance e RequestException = true.
Proof. by destruct e as [[] msg]. Qed.

(** X3. A call returns a payload exactly when the object type is 'NEO',
    the network answered, the status is no error and the body decodes;
    the payload is the decoded body, and the only trace of the call is
    the request: nothing is reported. *)
Theorem fetch_returns_a_payload_exactly_when
    body_code min_date max_date max_dist dist_unit my_limit object_type s data s' :
  fetch_close_approaches str_json net body_code min_date max_date max_dist
    dist_unit my_limit object_type s = (Return (Some data), s')
  ↔ object_type = "NEO"
    ∧ ∃ r, net url (<["neo" := PyStr "true"]>
                     (my_params_literal body_code min_date max_date max_dist
                        dist_unit my_limit)) = Return r
           ∧ Requests.status_error r = None
           ∧ Requests.body_json r = Some data
           ∧ s' = issued s url
                    (<["neo" := PyStr "true"]>
                       (my_params_literal body_code min_date max_date max_dist
                          dist_unit my_limit)).
Proof.
  assert (Hno : ∀ response e s0,
             handle str_json response e s0 ≠ (Return (Some data), s')).
  { intros response e s0 Heq.
    destruct (handle_cases response e s0) as (o & msgs & Hh & [->|[e' ->]] & _);
      congruence. }
  split.
  - destruct (decide (object_type = "NEO")) as [->|Hne].
    + rewrite fetch_NEO_unfold. intros Hfetch. split; [done|].
      destruct (net url _) as [r|e]; [|by apply Hno in Hfetch].
      destruct (Requests.status_error r) as [msg|] eqn:Hst;
        [by apply Hno in Hfetch|].
      destruct (Requests.body_json r) as [j|] eqn:Hbody;
        [|by apply Hno in Hfetch].
      injection Hfetch as -> <-. by exists r.
    + unfold fetch_close_approaches, mbind, M_bind.
      by rewrite add_object_type_other.
  - intros (-> & r & Hnet & Hst & Hbody & ->).
    by rewrite fetch_NEO_unfold, Hnet, Hst, Hbody.
Qed.

(** X4. Whatever a call does, what it adds to the page is error
    messages, two at most, and never a warning. *)
Theorem fetch_reports_errors_only
    body_code min_date max_date max_dist dist_unit my_limit object_type s :
  ∃ msgs,
    page (fetch_close_approaches str_json net body_code min_date max_date
            max_dist dist_unit my_limit object_type s).2
    = page s ++ msgs
    ∧ Forall (λ c, is_st_error c = true) msgs
    ∧ length msgs ≤ 2.
Proof.
  assert (Hh : ∀ response e s0, page s0 = page s →
             ∃ msgs, page (handle str_json response e s0).2 = page s ++ msgs
                     ∧ Forall (λ c, is_st_error c = true) msgs ∧ length msgs ≤ 2).
  { intros response e s0 Hs0.
    destruct (handle_cases response e s0) as (o & msgs & -> & _ & Herr & Hlen).
    exists msgs. cbn. by rewrite Hs0. }
  destruct (decide (object_type = "NEO")) as [->|Hne].
  - rewrite fetch_NEO_unfold.
    destruct (net url _) as [r|e]; [|by apply Hh].
    destruct (Requests.status_error r) as [msg|]; [by apply Hh|].
    destruct (Requests.body_json r) as [j|]; [|by apply Hh].
    exists []. cbn. rewrite app_nil_r. split; [done|]. split; [constructor|lia].
  - unfold fetch_close_approaches, mbind, M_bind.
    rewrite add_object_type_other by done.
    exists []. cbn. rewrite app_nil_r. split; [done|]. split; [constructor|lia].
Qed.

(** X5. An exception out of [requests.get] that is no
    [RequestException] is caught by neither clause: the call raises it
    unchanged and reports nothing. *)
Theorem other_exceptions_pass_through
    body_code min_date max_date max_dist dist_unit my_limit s e :
  net url (<["neo" := PyStr "true"]>
             (my_params_literal body_code min_date max_date max_dist
                dist_unit my_limit)) = Raise e →
  isinstance e RequestException = false →
  fetch_close_approaches str_json net body_code min_date max_date max_dist
    dist_unit my_limit "NEO" s
  = (Raise e,
     issued s url
       (<["neo" := PyStr "true"]>
          (my_params_literal body_code min_date max_date max_dist
             dist_unit my_limit))).
Proof.
  intros Hnet Hreq. rewrite fetch_NEO_unfold, Hnet.
  unfold handle. rewrite Hreq.
  destruct (isinstance e HTTPError) eqn:Hhttp; [|done].
  apply HTTPError_is_RequestException in Hhttp. congruence.
Qed.

End FetcherAnyNetwork.

Lemma other_exceptions_pass_through_witness :
  fetch_close_approaches (λ _ : unit, "None")
    (λ _ _, Raise (Exc TypeError "Object of type set is not JSON serializable"))
    "Earth" "now" "+60" "0.05" "AU" 100 "NEO" initial
  = (Raise (Exc TypeError "Object of type set is not JSON serializable"),
     issued initial url
       (<["neo" := PyStr "true"]>
          (my_params_literal "Earth" "now" "+60" "0.05" "AU" 100))).
Proof.
  apply (other_exceptions_pass_through (λ _ : unit, "None")
           (λ _ _, Raise (Exc TypeError
                            "Object of type set is not JSON serializable")));
    reflexivity.
Defined.

(** ** The normalizer, on any payload *)

Lemma lift_bind {A B} (o : outcome A) (k : A → M B) s :
  (lift o ≫= k) s = match o with
                    | Return a => k a s
                    | Raise e => (Raise e, s)
                    end.
Proof. by destruct o. Qed.

(** With a count that is not zero, [parse_data] is [typed_frame] and
    leaves the state alone. *)
Lemma parse_data_nonzero d s :
  eq_int (default (JInt 0) (get_count d)) 0 = false →
  parse_data (Some d) s
  = (typed_frame (default [] (get_fields d)) (default [] (get_data d)), s).
Proof.
  intros Hcount. unfold parse_data, typed_frame. rewrite Hcount.
  rewrite lift_bind. destruct (DataFrame_of _ _) as [fd0|e]; [|done]. cbn.
  rewrite lift_bind. destruct (getitem fd0 "cd" ≫= to_datetime) as [cd|e]; [|done].
  cbn. rewrite lift_bind.
  destruct (getitem _ "dist" ≫= to_numeric_coerce) as [dist|e]; [|done].
  cbn. rewrite lift_bind.
  destruct (getitem _ "v_rel" ≫= to_numeric_coerce) as [v_rel|e]; [|done].
  cbn. rewrite lift_bind.
  by destruct (getitem _ "v_inf" ≫= to_numeric_coerce) as [v_inf|e].
Qed.

(** X6. [parse_data] issues no request, and what it reports is either
    nothing or the one warning of the empty result; it never reports an
    error, whatever the payload. *)
Theorem parse_data_reports_at_most_the_warning data s :
  requests_issued (parse_data data s).2 = requests_issued s
  ∧ (page (parse_data data s).2 = page s
     ∨ page (parse_data data s).2
       = page s
         ++ [st_warning "⚠️ No close approached found for the given parameters."]).
Proof.
  destruct data as [d|]; [|by split; [|right]].
  destruct (eq_int (default (JInt 0) (get_count d)) 0) eqn:Hcount.
  - unfold parse_data. rewrite Hcount. by split; [|right].
  - rewrite parse_data_nonzero by done. by split; [|left].
Qed.

Lemma positions_elem_of c labels k n :
  n ∈ positions c labels k ↔ ∃ j, n = k + j ∧ labels !! j = Some c.
Proof.
  revert k. induction labels as [|l labels IH]; intros k; cbn.
  - split; [by intros ?%elem_of_nil|by intros (j & _ & ?)].
  - case_bool_decide as Hl.
    + rewrite elem_of_cons, IH. split.
      * intros [->|(j & -> & Hj)]; [exists 0|exists (S j)];
          (split; [lia|]); [cbn; congruence|done].
      * intros ([|j] & -> & Hj); [left; lia|right]. exists j. split; [lia|done].
    + rewrite IH. split.
      * intros (j & -> & Hj). exists (S j). split; [lia|done].
      * intros ([|j] & -> & Hj); [cbn in Hj; congruence|].
        exists j. split; [lia|done].
Qed.

(** A label found at one position only: it is in the list, once. *)
Lemma positions_singleton c labels i :
  positions c labels 0 = [i] →
  labels !! i = Some c ∧ ∀ j, labels !! j = Some c → j = i.
Proof.
  intros Hpos. split.
  - assert (Hi : i ∈ positions c labels 0) by (rewrite Hpos; apply list_elem_of_here).
    apply positions_elem_of in Hi as (j & -> & Hj). done.
  - intros j Hj.
    assert (Hin : j ∈ positions c labels 0)
      by (apply positions_elem_of; by exists j).
    rewrite Hpos in Hin. by apply list_elem_of_singleton in Hin.
Qed.

(** The frame [pd.DataFrame(records, columns=fields)] builds, when it
    builds one. *)
Lemma DataFrame_of_shape records fields fd :
  DataFrame_of records fields = Return fd →
  columns fd = fields
  ∧ length (rows fd) = length records
  ∧ Forall (λ r, length r = length fields) (rows fd).
Proof.
  unfold DataFrame_of. destruct records as [|r0 records].
  { intros [= <-]. by repeat split. }
  remember (r0 :: records) as rs eqn:Hrs.
  case_bool_decide as Hw; [|done]. intros Hfd.
  assert (fd = Frame fields (pad (max_list (length <$> rs)) <$> raw_rows rs))
    as -> by congruence.
  clear Hfd Hrs. cbn [columns rows]. unfold raw_rows.
  split; [done|]. split; [by rewrite !length_fmap|].
  apply Forall_fmap, Forall_fmap, Forall_forall. intros r Hr. cbn.
  unfold pad. rewrite length_app, length_replicate, length_fmap, <- Hw.
  assert (length r ≤ max_list (length <$> rs)); [|lia].
  apply max_list_elem_of_le, list_elem_of_fmap. by exists r.
Qed.

Lemma to_datetime_cells_length v w :
  to_datetime_cells v = Return w → length w = length v.
Proof.
  revert w. induction v as [|x v IH]; intros w; cbn; [by intros [= <-]|].
  destruct (to_datetime_cell x) as [y|]; [|done]. cbn.
  destruct (to_datetime_cells v) as [w'|]; [|done]. cbn.
  intros [= <-]. cbn. f_equal. by apply IH.
Qed.

(** One coercion step that returns: the label sits in one column, and
    the frame keeps its labels and its shape. *)
Lemma coercion_step fd c (f : Series + DataFrame → outcome Series) v n w :
  (∀ arg v', f arg = Return v' → ∃ s, arg = inl s ∧ length v' = length s) →
  length (rows fd) = n → Forall (λ r, length r = w) (rows fd) →
  getitem fd c ≫= f = Return v →
  (∃ i, positions c (columns fd) 0 = [i])
  ∧ columns (setitem fd c v) = columns fd
  ∧ length (rows (setitem fd c v)) = n
  ∧ Forall (λ r, length r = w) (rows (setitem fd c v)).
Proof.
  intros Hf Hn Hw. unfold getitem, setitem.
  destruct (positions c (columns fd) 0) as [|i [|i' ps]] eqn:Hpos; [done| |].
  - cbn. intros (s & [= <-] & Hlen)%Hf. rewrite length_fmap in Hlen.
    split; [by exists i|]. split; [done|]. cbn [rows].
    split; [rewrite length_zip_with; lia|].
    apply Forall_forall. intros r (r0 & x & -> & Hr0 & _)%elem_of_zip_with.
    cbn. rewrite length_insert. by eapply Forall_forall in Hw.
  - cbn. by intros (s & [=] & _)%Hf.
Qed.

Lemma to_datetime_series arg v :
  to_datetime arg = Return v → ∃ s, arg = inl s ∧ length v = length s.
Proof.
  destruct arg as [s|]; [|done]. cbn. intros Hv. exists s.
  split; [done|]. by apply to_datetime_cells_length.
Qed.

Lemma to_numeric_series arg v :
  to_numeric_coerce arg = Return v → ∃ s, arg = inl s ∧ length v = length s.
Proof.
  destruct arg as [s|]; [|done]. cbn. intros [= <-]. exists s.
  by rewrite length_fmap.
Qed.

(** What a returning [typed_frame] implies. *)
Lemma typed_frame_returns fields records fd :
  typed_frame fields records = Return fd →
  columns fd = fields
  ∧ length (rows fd) = length records
  ∧ Forall (λ r, length r = length fields) (rows fd)
  ∧ Forall (λ c, ∃ i, positions c fields 0 = [i]) ("cd" :: numeric_fields).
Proof.
  unfold typed_frame.
  destruct (DataFrame_of records fields) as [fd0|] eqn:H0; [|done]. cbn.
  apply DataFrame_of_shape in H0 as (Hc0 & Hn0 & Hw0).
  destruct (getitem fd0 "cd" ≫= to_datetime) as [cd|] eqn:H1; [|done]. cbn.
  destruct (coercion_step _ _ _ _ _ _ to_datetime_series Hn0 Hw0 H1)
    as (P1 & Hc1 & Hn1 & Hw1).
  destruct (getitem _ "dist" ≫= to_numeric_coerce) as [dist|] eqn:H2; [|done]. cbn.
  destruct (coercion_step _ _ _ _ _ _ to_numeric_series Hn1 Hw1 H2)
    as (P2 & Hc2 & Hn2 & Hw2).
  destruct (getitem _ "v_rel" ≫= to_numeric_coerce) as [v_rel|] eqn:H3; [|done]. cbn.
  destruct (coercion_step _ _ _ _ _ _ to_numeric_series Hn2 Hw2 H3)
    as (P3 & Hc3 & Hn3 & Hw3).
  destruct (getitem _ "v_inf" ≫= to_numeric_coerce) as [v_inf|] eqn:H4; [|done]. cbn.
  destruct (coercion_step _ _ _ _ _ _ to_numeric_series Hn3 Hw3 H4)
    as (P4 & Hc4 & Hn4 & Hw4).
  intros [= <-].
  rewrite Hc4, Hc3, Hc2, Hc1, Hc0.
  rewrite Hc3, Hc2, Hc1, Hc0 in P4. rewrite Hc2, Hc1, Hc0 in P3.
  rewrite Hc1, Hc0 in P2. rewrite Hc0 in P1.
  repeat split; try done. unfold numeric_fields. by repeat constructor.
Qed.

(** X7. Whenever [parse_data] returns on a payload whose count is not
    zero, the frame has the field names as its columns, one row per
    record of the payload (whatever number the count gives), every row
    as wide as the field list, and nothing was reported. *)
Theorem parse_data_keeps_the_shape d s fd s' :
  eq_int (default (JInt 0) (get_count d)) 0 = false →
  parse_data (Some d) s = (Return fd, s') →
  s' = s
  ∧ columns fd = default [] (get_fields d)
  ∧ length (rows fd) = length (default [] (get_data d))
  ∧ Forall (λ r, length r = length (columns fd)) (rows fd).
Proof.
  intros Hcount. rewrite parse_data_nonzero by done. intros [= Hfd <-].
  apply typed_frame_returns in Hfd as (Hc & Hn & Hw & _).
  rewrite Hc. by repeat split.
Qed.

(** X8. [parse_data] returns on a payload whose count is not zero only
    if the field list names each of [cd], [dist], [v_rel] and [v_inf],
    and each of them once. *)
Theorem parse_data_needs_each_typed_field_once d s fd s' c :
  eq_int (default (JInt 0) (get_count d)) 0 = false →
  parse_data (Some d) s = (Return fd, s') →
  c ∈ ["cd"; "dist"; "v_rel"; "v_inf"] →
  ∃ i, default [] (get_fields d) !! i = Some c
       ∧ ∀ j, default [] (get_fields d) !! j = Some c → j = i.
Proof.
  intros Hcount. rewrite parse_data_nonzero by done. intros [= Hfd <-] Hc.
  apply typed_frame_returns in Hfd as (_ & _ & _ & Hall).
  rewrite Forall_forall in Hall. destruct (Hall c Hc) as [i Hi].
  exists i. by apply positions_singleton.
Qed.

Lemma DataFrame_of_aligned_or_empty records fields :
  Forall (λ r, length r = length fields) records →
  DataFrame_of records fields = Return (Frame fields (raw_rows records)).
Proof.
  intros Hal. destruct (decide (records = [])) as [->|Hne]; [done|].
  by apply DataFrame_of_aligned.
Qed.

Lemma date_accepted_returns v :
  date_accepted v → ∃ y, to_datetime_cell (of_json v) = Return y.
Proof.
  intros [->|[->|[t Ht]]]; [by eexists|by eexists|].
  destruct v as [s|]; [|done]. exists (Stamp t).
  by apply to_datetime_cell_matching.
Qed.

(** The typed rows, for dates that may also be null or blank, and for
    any number of records. *)
Lemma typed_frame_typed_rows fields records :
  NoDup fields →
  Forall (λ c, c ∈ fields) ("cd" :: numeric_fields) →
  Forall (λ r, length r = length fields) records →
  Forall (λ r, Forall (λ fv, fv.1 = "cd" → date_accepted fv.2) (zip fields r))
         records →
  typed_frame fields records = Return (Frame fields (typed_row fields <$> records)).
Proof.
  intros Hnd Hty Hal Hdates. unfold typed_frame.
  rewrite DataFrame_of_aligned_or_empty by done. cbn.
  unfold numeric_fields in Hty.
  apply Forall_cons in Hty as [[i_cd Hcd]%list_elem_of_lookup_1 Hty].
  apply Forall_cons in Hty as [[i_dist Hdist]%list_elem_of_lookup_1 Hty].
  apply Forall_cons in Hty as [[i_v_rel Hrel]%list_elem_of_lookup_1 Hty].
  apply Forall_cons in Hty as [[i_v_inf Hinf]%list_elem_of_lookup_1 _].
  pose proof (positions_unique _ _ _ 0 Hnd Hcd) as Pcd.
  pose proof (positions_unique _ _ _ 0 Hnd Hdist) as Pdist.
  pose proof (positions_unique _ _ _ 0 Hnd Hrel) as Prel.
  pose proof (positions_unique _ _ _ 0 Hnd Hinf) as Pinf.
  cbn [Nat.add] in *.
  rewrite (getitem_unique _ _ _ _ Pcd). cbn.
  rewrite to_datetime_cells_returns.
  2: { apply Forall_fmap, Forall_fmap.
       assert (Hboth : Forall (λ r, length r = length fields
                  ∧ Forall (λ fv, fv.1 = "cd" → date_accepted fv.2) (zip fields r))
                 records) by (by apply Forall_and).
       eapply Forall_impl; [exact Hboth|].
       intros r [Hr Hd]. cbn.
       destruct (r !! i_cd) as [v|] eqn:Hv.
       2: { apply lookup_ge_None in Hv. apply lookup_lt_Some in Hcd. lia. }
       assert (Hz : zip fields r !! i_cd = Some ("cd", v))
         by (by rewrite lookup_zip_with, Hcd, Hv).
       pose proof (Forall_lookup_1 _ _ _ _ Hd Hz eq_refl) as Hacc. cbn in Hacc.
       unfold cell_at. rewrite list_lookup_fmap, Hv. cbn.
       by apply date_accepted_returns. }
  cbn. rewrite (setitem_unique _ _ _ _ _ Pcd).
  rewrite (getitem_unique _ _ _ _ Pdist). cbn.
  rewrite (setitem_unique _ _ _ _ _ Pdist).
  rewrite (getitem_unique _ _ _ _ Prel). cbn.
  rewrite (setitem_unique _ _ _ _ _ Prel).
  rewrite (getitem_unique _ _ _ _ Pinf). cbn.
  rewrite (setitem_unique _ _ _ _ _ Pinf).
  do 2 f_equal. unfold raw_rows.
  rewrite <- !list_fmap_compose.
  apply Forall_fmap_ext_1.
  eapply Forall_impl; [exact Hal|]. intros r Hr. cbn.
  by apply columnwise_typed_row.
Qed.

(** X9. A date that is null or blank does not make [parse_data]
    raise: in a payload that is otherwise in order the record keeps its
    row, with the missing marker as its date. *)
Theorem null_or_blank_date_becomes_missing
    d fields records s i record j v :
  eq_int (default (JInt 0) (get_count d)) 0 = false →
  get_fields d = Some fields → get_data d = Some records →
  NoDup fields →
  Forall (λ c, c ∈ fields) ("cd" :: numeric_fields) →
  Forall (λ r, length r = length fields) records →
  Forall (λ r, Forall (λ fv, fv.1 = "cd" → date_accepted fv.2) (zip fields r))
         records →
  records !! i = Some record → fields !! j = Some "cd" →
  record !! j = Some v → v = None ∨ v = Some "" →
  ∃ fd row,
    parse_data (Some d) s = (Return fd, s)
    ∧ rows fd = typed_row fields <$> records
    ∧ rows fd !! i = Some row
    ∧ row !! j = Some Missing.
Proof.
  intros Hcount Hfields Hdata Hnd Hty Hal Hdates Hrec Hj Hv Hblank.
  exists (Frame fields (typed_row fields <$> records)), (typed_row fields record).
  split.
  { rewrite parse_data_nonzero by done. rewrite Hfields, Hdata. cbn.
    by rewrite typed_frame_typed_rows. }
  cbn. split; [done|]. split; [by rewrite list_lookup_fmap, Hrec|].
  unfold typed_row. rewrite lookup_zip_with, Hj, Hv. cbn.
  by destruct Hblank as [->| ->].
Qed.

(** X10. When the count is not zero and the field list has no [cd]
    (the [fields] key may be absent altogether), [parse_data] raises
    [KeyError] for [cd], given records as wide as the field list. *)
Theorem parse_data_without_cd_raises_KeyError d s :
  eq_int (default (JInt 0) (get_count d)) 0 = false →
  Forall (λ r, length r = length (default [] (get_fields d)))
         (default [] (get_data d)) →
  "cd" ∉ default [] (get_fields d) →
  parse_data (Some d) s = (Raise (Exc KeyError "cd"), s).
Proof.
  intros Hcount Hal Hcd. rewrite parse_data_nonzero by done.
  unfold typed_frame. rewrite DataFrame_of_aligned_or_empty by done. cbn.
  unfold getitem. cbn. by rewrite positions_absent.
Qed.

(** X11. When the count is not zero and the records do not fit the
    field list (one of them is longer, or all of them are shorter),
    [parse_data] raises [ValueError]. *)
Theorem parse_data_rejects_misfit_records d s :
  eq_int (default (JInt 0) (get_count d)) 0 = false →
  default [] (get_data d) ≠ [] →
  Exists (λ r, length (default [] (get_fields d)) < length r)
         (default [] (get_data d))
  ∨ Forall (λ r, length r < length (default [] (get_fields d)))
           (default [] (get_data d)) →
  ∃ e, parse_data (Some d) s = (Raise e, s) ∧ exc_cls e = ValueError.
Proof.
  intros Hcount Hne Hfit. rewrite parse_data_nonzero by done.
  unfold typed_frame, DataFrame_of.
  destruct (default [] (get_data d)) as [|r0 records] eqn:Hrec; [done|].
  rewrite bool_decide_eq_false_2; [by eexists|].
  remember (r0 :: records) as rs eqn:Hrs. intros Hmax.
  destruct Hfit as [Hlong|Hshort].
  - apply Exists_exists in Hlong as (r & Hr & Hlen).
    assert (length r ≤ max_list (length <$> rs)); [|lia].
    apply max_list_elem_of_le, list_elem_of_fmap. by exists r.
  - assert (Hin : max_list (length <$> rs) ∈ length <$> rs).
    { apply max_list_elem_of. by subst rs. }
    apply list_elem_of_fmap in Hin as (r & Hlen & Hr).
    rewrite Forall_forall in Hshort. specialize (Hshort r Hr). lia.
Qed.

Lemma parse_data_keeps_the_shape_witness :
  initial = initial
  ∧ columns scenario_frame
    = default [] (get_fields (scenario "2025-Jan-15 03:20" "0.0123"))
  ∧ length (rows scenario_frame)
    = length (default [] (get_data (scenario "2025-Jan-15 03:20" "0.0123")))
  ∧ Forall (λ r, length r = length (columns scenario_frame)) (rows scenario_frame).
Proof.
  apply (parse_data_keeps_the_shape (scenario "2025-Jan-15 03:20" "0.0123")
           initial scenario_frame initial); reflexivity.
Defined.

Lemma parse_data_needs_each_typed_field_once_witness :
  ∃ i, default [] (get_fields (scenario "2025-Jan-15 03:20" "0.0123")) !! i
       = Some "v_inf"
       ∧ ∀ j, default [] (get_fields (scenario "2025-Jan-15 03:20" "0.0123")) !! j
              = Some "v_inf" → j = i.
Proof.
  apply (parse_data_needs_each_typed_field_once
           (scenario "2025-Jan-15 03:20" "0.0123") initial scenario_frame
           initial "v_inf").
  - reflexivity.
  - reflexivity.
  - apply (bool_decide_unpack _). by vm_compute.
Defined.

Lemma null_or_blank_date_becomes_missing_witness :
  ∃ fd row,
    parse_data
      (Some (Payload (Some (JInt 7)) (Some scenario_fields)
               (Some [[Some "2025 AB"; None; Some "0.0123"; Some "7.5"; Some "7.4"]])))
      initial
    = (Return fd, initial)
    ∧ rows fd
      = typed_row scenario_fields
          <$> [[Some "2025 AB"; None; Some "0.0123"; Some "7.5"; Some "7.4"]]
    ∧ rows fd !! 0 = Some row
    ∧ row !! 1 = Some Missing.
Proof.
  apply (null_or_blank_date_becomes_missing
           (Payload (Some (JInt 7)) (Some scenario_fields)
              (Some [[Some "2025 AB"; None; Some "0.0123"; Some "7.5"; Some "7.4"]]))
           scenario_fields
           [[Some "2025 AB"; None; Some "0.0123"; Some "7.5"; Some "7.4"]]
           initial 0
           [Some "2025 AB"; None; Some "0.0123"; Some "7.5"; Some "7.4"] 1 None).
  - reflexivity.
  - reflexivity.
  - reflexivity.
  - apply (bool_decide_unpack _). by vm_compute.
  - apply (bool_decide_unpack _). by vm_compute.
  - by repeat constructor.
  - apply Forall_singleton. unfold scenario_fields. cbn [zip_with].
    repeat apply Forall_cons_2; try apply Forall_nil_2; cbn [fst snd];
      try discriminate.
    intros _. by left.
  - reflexivity.
  - reflexivity.
  - reflexivity.
  - by left.
Defined.

Lemma parse_data_without_cd_raises_KeyError_witness :
  parse_data (Some (Payload (Some (JStr "0")) None None)) initial
  = (Raise (Exc KeyError "cd"), initial).
Proof.
  apply (parse_data_without_cd_raises_KeyError
           (Payload (Some (JStr "0")) None None) initial).
  - reflexivity.
  - constructor.
  - apply not_elem_of_nil.
Defined.

Lemma parse_data_rejects_misfit_records_witness :
  ∃ e,
    parse_data
      (Some (Payload (Some (JInt 1)) (Some scenario_fields)
               (Some [[Some "2025 AB"; Some "2025-Jan-15 03:20"]])))
      initial
    = (Raise e, initial)
    ∧ exc_cls e = ValueError.
Proof.
  apply (parse_data_rejects_misfit_records
           (Payload (Some (JInt 1)) (Some scenario_fields)
              (Some [[Some "2025 AB"; Some "2025-Jan-15 03:20"]]))
           initial).
  - reflexivity.
  - discriminate.
  - right. apply Forall_singleton. cbn. lia.
Defined.

(** ** The combiner, on any two frames *)

Lemma keep_first_elem_of seen l r :
  r ∈ keep_first seen l ↔ r ∈ l ∧ r ∉ seen.
Proof.
  revert seen. induction l as [|x l IH]; intros seen; cbn.
  - split; [by intros ?%elem_of_nil|by intros [?%elem_of_nil _]].
  - case_bool_decide as Hx.
    + rewrite IH, elem_of_cons. split; [tauto|].
      intros [[->|?] ?]; [done|tauto].
    + rewrite !elem_of_cons, IH, not_elem_of_cons. split.
      * intros [->|(? & ? & ?)]; tauto.
      * intros [[->|?] ?]; [by left|].
        destruct (decide (r = x)) as [->|?]; [by left|right; tauto].
Qed.

Lemma keep_first_no_duplicates seen l : NoDup (keep_first seen l).
Proof.
  revert seen. induction l as [|x l IH]; intros seen; cbn; [constructor|].
  case_bool_decide; [apply IH|]. apply NoDup_cons. split; [|apply IH].
  rewrite keep_first_elem_of, not_elem_of_cons. tauto.
Qed.

Lemma keep_first_app_any seen x y :
  keep_first seen (x ++ y) = keep_first seen x ++ keep_first (x ++ seen) y.
Proof.
  revert seen. induction x as [|r x IH]; intros seen; [done|]. cbn.
  case_bool_decide as Hr.
  - rewrite IH. f_equal. apply keep_first_ext. intros r'.
    rewrite elem_of_cons, !elem_of_app. split; [tauto|].
    intros [->|?]; tauto.
  - cbn. f_equal. rewrite IH. f_equal. apply keep_first_ext. intros r'.
    rewrite !elem_of_cons, !elem_of_app, elem_of_cons. tauto.
Qed.

(** Frames over the same columns are stacked, the empty frame included. *)
Lemma concat_same_columns a b :
  columns a = columns b →
  concat a b = Return (Frame (columns a) (rows a ++ rows b)).
Proof.
  intros Hcols. unfold concat.
  case_bool_decide as Ha.
  { subst a. destruct b as [cols rws]. cbn in *. by subst cols. }
  case_bool_decide as Hb.
  { subst b. destruct a as [cols rws]. cbn in *. subst cols.
    by rewrite app_nil_r. }
  by rewrite bool_decide_eq_true_2.
Qed.

Lemma combine_same_columns a b :
  columns a = columns b →
  combine a b = Return (Frame (columns a) (keep_first [] (rows a ++ rows b))).
Proof. intros Hcols. unfold combine. by rewrite concat_same_columns. Qed.

(** X12. Whatever the two frames, when the combination returns a frame,
    no row occurs twice in it, and combining it with itself, or dropping
    duplicates again, changes nothing. *)
Theorem combine_leaves_no_duplicates a b fd :
  combine a b = Return fd →
  NoDup (rows fd) ∧ drop_duplicates fd = fd ∧ combine fd fd = Return fd.
Proof.
  unfold combine at 1. destruct (concat a b) as [fd0|]; [|done].
  cbn. intros [= <-].
  assert (Hnd : NoDup (keep_first [] (rows fd0))) by apply keep_first_no_duplicates.
  split; [done|]. unfold drop_duplicates at 1 2. cbn [rows columns].
  rewrite (keep_first_NoDup _ Hnd). split; [done|].
  rewrite combine_same_columns by done. cbn [rows columns]. do 2 f_equal.
  rewrite keep_first_after, keep_first_NoDup by done.
  by rewrite filter_none_of_its_own, app_nil_r.
Qed.

(** X13. Over the same columns, the rows of the combination are exactly
    the rows that occur in one of the operands, under those columns:
    nothing is invented, and only repetitions go. *)
Theorem combine_has_the_rows_of_both a b :
  columns a = columns b →
  ∃ fd, combine a b = Return fd
        ∧ columns fd = columns a
        ∧ (∀ r, r ∈ rows fd ↔ r ∈ rows a ∨ r ∈ rows b)
        ∧ length (rows fd) ≤ length (rows a) + length (rows b).
Proof.
  intros Hcols. eexists. split; [by apply combine_same_columns|]. cbn.
  split; [done|]. split.
  - intros r. rewrite keep_first_elem_of, elem_of_app.
    split; [tauto|]. intros ?. split; [done|apply not_elem_of_nil].
  - rewrite <- length_app. apply sublist_length, keep_first_sublist.
Qed.

(** X14. Over the same columns, swapping the operands changes the order
    of the rows at most: the two results are permutations of each other. *)
Theorem combine_commutes_up_to_order a b :
  columns a = columns b →
  ∃ fd fd', combine a b = Return fd ∧ combine b a = Return fd'
            ∧ columns fd = columns fd'
            ∧ rows fd ≡ₚ rows fd'.
Proof.
  intros Hcols. eexists _, _.
  split; [by apply combine_same_columns|].
  split; [by apply combine_same_columns|]. cbn. split; [done|].
  apply NoDup_Permutation; try apply keep_first_no_duplicates.
  intros r. rewrite !keep_first_elem_of, !elem_of_app. tauto.
Qed.

(** X15. Over the same columns, combining is associative: three frames
    combined in either grouping give the same frame, the rows in the
    order of their first occurrence in the three frames put end to end. *)
Theorem combine_is_associative a b c :
  columns a = columns b → columns b = columns c →
  ∃ ab bc fd,
    combine a b = Return ab ∧ combine b c = Return bc
    ∧ combine ab c = Return fd ∧ combine a bc = Return fd
    ∧ rows fd = keep_first [] (rows a ++ rows b ++ rows c).
Proof.
  intros Hab Hbc. eexists _, _, _.
  split; [by apply combine_same_columns|].
  split; [by apply combine_same_columns|].
  assert (Hleft : keep_first [] (keep_first [] (rows a ++ rows b) ++ rows c)
                  = keep_first [] (rows a ++ rows b ++ rows c)).
  { rewrite (assoc_L (++)), !(keep_first_app_any [] _ (rows c)), !app_nil_r.
    rewrite (keep_first_NoDup _ (keep_first_no_duplicates _ _)). f_equal.
    apply keep_first_ext. intros r. rewrite keep_first_elem_of.
    split; [tauto|]. intros ?. split; [done|apply not_elem_of_nil]. }
  assert (Hright : keep_first [] (rows a ++ keep_first [] (rows b ++ rows c))
                   = keep_first [] (rows a ++ rows b ++ rows c)).
  { rewrite !(keep_first_app_any [] (rows a)), !app_nil_r. f_equal.
    rewrite (keep_first_filter (rows a) (keep_first _ _)).
    rewrite (keep_first_NoDup _ (keep_first_no_duplicates _ _)).
    by rewrite <- keep_first_filter. }
  split; [|split].
  - rewrite combine_same_columns by (cbn; congruence). cbn [rows columns].
    by rewrite Hleft.
  - rewrite combine_same_columns by (cbn; congruence). cbn [rows columns].
    by rewrite Hright.
  - done.
Qed.

Lemma combine_leaves_no_duplicates_witness :
  NoDup (rows (Frame ["des"] [[Str "2025 AB"]; [Str "C/2025 X1"]]))
  ∧ drop_duplicates (Frame ["des"] [[Str "2025 AB"]; [Str "C/2025 X1"]])
    = Frame ["des"] [[Str "2025 AB"]; [Str "C/2025 X1"]]
  ∧ combine (Frame ["des"] [[Str "2025 AB"]; [Str "C/2025 X1"]])
            (Frame ["des"] [[Str "2025 AB"]; [Str "C/2025 X1"]])
    = Return (Frame ["des"] [[Str "2025 AB"]; [Str "C/2025 X1"]]).
Proof.
  apply (combine_leaves_no_duplicates
           (Frame ["des"] [[Str "2025 AB"]; [Str "2025 AB"]])
           (Frame ["des"] [[Str "C/2025 X1"]; [Str "2025 AB"]])).
  reflexivity.
Defined.

Lemma combine_has_the_rows_of_both_witness :
  ∃ fd, combine (Frame ["des"] [[Str "2025 AB"]; [Str "2025 AB"]])
                (Frame ["des"] [[Str "C/2025 X1"]; [Str "2025 AB"]])
        = Return fd
        ∧ columns fd = ["des"]
        ∧ (∀ r, r ∈ rows fd
                ↔ r ∈ [[Str "2025 AB"]; [Str "2025 AB"]]
                  ∨ r ∈ [[Str "C/2025 X1"]; [Str "2025 AB"]])
        ∧ length (rows fd) ≤ 2 + 2.
Proof.
  apply (combine_has_the_rows_of_both
           (Frame ["des"] [[Str "2025 AB"]; [Str "2025 AB"]])
           (Frame ["des"] [[Str "C/2025 X1"]; [Str "2025 AB"]])).
  reflexivity.
Defined.

Lemma combine_commutes_up_to_order_witness :
  ∃ fd fd',
    combine (Frame ["des"] [[Str "2025 AB"]; [Str "2025 AB"]])
            (Frame ["des"] [[Str "C/2025 X1"]; [Str "2025 AB"]]) = Return fd
    ∧ combine (Frame ["des"] [[Str "C/2025 X1"]; [Str "2025 AB"]])
              (Frame ["des"] [[Str "2025 AB"]; [Str "2025 AB"]]) = Return fd'
    ∧ columns fd = columns fd'
    ∧ rows fd ≡ₚ rows fd'.
Proof.
  apply (combine_commutes_up_to_order
           (Frame ["des"] [[Str "2025 AB"]; [Str "2025 AB"]])
           (Frame ["des"] [[Str "C/2025 X1"]; [Str "2025 AB"]])).
  reflexivity.
Defined.

Lemma combine_is_associative_witness :
  ∃ ab bc fd,
    combine (Frame ["des"] [[Str "2025 AB"]]) (Frame ["des"] [[Str "C/2025 X1"]])
    = Return ab
    ∧ combine (Frame ["des"] [[Str "C/2025 X1"]]) (Frame ["des"] [[Str "2025 AB"]])
      = Return bc
    ∧ combine ab (Frame ["des"] [[Str "2025 AB"]]) = Return fd
    ∧ combine (Frame ["des"] [[Str "2025 AB"]]) bc = Return fd
    ∧ rows fd
      = keep_first [] ([[Str "2025 AB"]] ++ [[Str "C/2025 X1"]] ++ [[Str "2025 AB"]]).
Proof.
  apply (combine_is_associative
           (Frame ["des"] [[Str "2025 AB"]]) (Frame ["des"] [[Str "C/2025 X1"]])
           (Frame ["des"] [[Str "2025 AB"]])); reflexivity.
Defined.

(** ** The script *)

(** Unfolds the sequencing of the script. *)
Ltac run_Script :=
  unfold mbind, Script_bind, mret, Script_ret, fail, of_outcome, local,
    subscript, render, get_session, set_session; cbn.

Lemma next_day_calendar_day d :
  calendar_day d →
  calendar_day (Datetime.next_day d) ∧ date_before d (Datetime.next_day d).
Proof.
  destruct d as [y m dd]. unfold calendar_day, date_before, Datetime.next_day.
  cbn [Datetime.d_year Datetime.d_month Datetime.d_day]. intros [Hm Hd].
  assert (H28 : ∀ y' m', 28 ≤ Pandas.days_in_month y' m').
  { intros y' m'. unfold Pandas.days_in_month.
    do 12 (destruct m' as [|m']; [try destruct (Pandas.is_leap y'); lia|]). lia. }
  destruct (Nat.ltb_spec dd (Pandas.days_in_month y m));
    cbn [Datetime.d_year Datetime.d_month Datetime.d_day]; [lia|].
  destruct (Nat.ltb_spec m 12);
    cbn [Datetime.d_year Datetime.d_month Datetime.d_day].
  - specialize (H28 y (S m)). lia.
  - specialize (H28 (S y) 1). lia.
Qed.

Lemma date_before_trans d e f : date_before d e → date_before e f → date_before d f.
Proof. unfold date_before. lia. Qed.

(** Later days are calendar days, after the day counted from. *)
Lemma plus_days_later d n :
  calendar_day d → 1 ≤ n →
  calendar_day (Datetime.plus_days d n) ∧ date_before d (Datetime.plus_days d n).
Proof.
  intros Hd Hn. unfold Datetime.plus_days.
  induction n as [|n IH]; [lia|]. cbn.
  destruct n as [|n].
  - cbn. by apply next_day_calendar_day.
  - destruct IH as [Hc Hb]; [lia|].
    destruct (next_day_calendar_day _ Hc) as [Hc' Hb'].
    split; [done|]. by eapply date_before_trans.
Qed.

Section ScriptFacts.
Variable str_json : payload → string.
Variable net : Requests.network payload.
Variable today : Datetime.date.
Variable statsmodels_installed : bool.
Variable px_scatter_raises : scatter_call → option exc.
Variable to_csv : DataFrame → string.

Local Abbreviation visualize :=
  (visualize_close_approaches statsmodels_installed px_scatter_raises).
Local Abbreviation display_ := (display statsmodels_installed px_scatter_raises to_csv).
Local Abbreviation fetch_action_ := (fetch_action str_json net).
Local Abbreviation main_ :=
  (main str_json net today statsmodels_installed px_scatter_raises to_csv).

(** A computation of the pipeline touches neither the session nor the
    elements on the page. *)
Lemma run_core_frame {A} (m : M A) a :
  session_state (run_core m a).2 = session_state a
  ∧ rendered (run_core m a).2 = rendered a
  ∧ core (run_core m a).2 = (m (core a)).2.
Proof. unfold run_core. by destruct (m (core a)) as [[x|e] s]. Qed.

Lemma run_core_raises {A} (m : M A) a e s :
  m (core a) = (Raise e, s) →
  run_core m a = (Failed (Exception e), App s (session_state a) (rendered a)).
Proof. intros H. unfold run_core. by rewrite H. Qed.

Lemma run_core_returns {A} (m : M A) a x s :
  m (core a) = (Return x, s) →
  run_core m a = (Done x, App s (session_state a) (rendered a)).
Proof. intros H. unfold run_core. by rewrite H. Qed.

Lemma parse_data_requests data s :
  requests_issued (parse_data data s).2 = requests_issued s.
Proof.
  destruct data as [d|]; [|done].
  destruct (eq_int (default (JInt 0) (get_count d)) 0) eqn:Hcount.
  - unfold parse_data. by rewrite Hcount.
  - by rewrite parse_data_nonzero.
Qed.

(** Before the button is looked at, a run either stops where it started
    or has an end date: none, when the option is neither of the two, or
    the day counted from the start date. The option 'Specific Date' always
    stops. *)
Lemma main_prelude i a :
  (∃ f, main_ i a = (Failed f, a))
  ∨ ∃ body_code max_date,
      BODY_CODES !! Ui.body_display i = Some body_code
      ∧ main_ i a = (fetch_action_ i body_code max_date;; display_ i) a
      ∧ ((max_date = None
          ∧ Ui.max_date_option i ≠ "Days from Start Date")
         ∨ ∃ e, Ui.max_date_option i = "Days from Start Date"
                ∧ Datetime.add_timedelta (Ui.min_date i) (Ui.days_from_start i)
                  = Some e
                ∧ max_date = Some (Datetime.strftime e)).
Proof.
  unfold main.
  destruct (BODY_CODES !! Ui.body_display i) as [body_code|] eqn:Hb;
    [|left; by eexists].
  destruct (Datetime.add_timedelta today 60) as [d|]; [|left; by eexists].
  unfold end_date.
  case_bool_decide as Hdays.
  - destruct (Datetime.add_timedelta (Ui.min_date i) _) as [e|] eqn:He.
    + right. exists body_code, (Some (Datetime.strftime e)).
      split; [done|]. split; [|right; by exists e].
      reflexivity.
    + left. by eexists.
  - case_bool_decide as Hspecific.
    + left. by eexists.
    + right. exists body_code, None. split; [done|]. split; [|by left].
      reflexivity.
Qed.

(** X16. With the end-date option 'Specific Date' every run stops on a
    [ValueError] before anything is requested, shown or stored: the upper
    bound [datetime(2100, 12, 41)] of the date widget is no date. *)
Theorem specific_date_option_raises_ValueError i a :
  is_Some (BODY_CODES !! Ui.body_display i) →
  is_Some (Datetime.add_timedelta today 60) →
  Ui.max_date_option i = "Specific Date" →
  ∃ e, main_ i a = (Failed (Exception e), a) ∧ exc_cls e = ValueError.
Proof.
  intros [body_code Hb] [d Hd] Hoption.
  unfold main, end_date. rewrite Hb, Hd, Hoption.
  by eexists.
Qed.

(** With the button clicked and an object type other than 'NEO', the
    action stops on an exception; the session and the elements on the page
    are as before. *)
Lemma fetch_action_other i body_code max_date a :
  Ui.fetch_data i = true → Ui.object_type i ≠ "NEO" →
  ∃ f a', fetch_action_ i body_code max_date a = (Failed f, a')
    ∧ session_state a' = session_state a ∧ rendered a' = rendered a.
Proof.
  intros Hclick Hty. unfold fetch_action. rewrite Hclick.
  case_bool_decide as Hone.
  - destruct max_date as [d|]; [|by eexists _, _].
    eexists _, _. unfold mbind at 1, Script_bind at 1.
    unfold mbind at 1, Script_bind at 1. cbn [local mret Script_ret].
    unfold mbind at 1, Script_bind at 1.
    erewrite run_core_raises; [done|].
    unfold fetch_close_approaches, mbind, M_bind.
    by rewrite add_object_type_other.
  - case_bool_decide as Hboth.
    + destruct max_date as [d|]; [|by eexists _, _].
      destruct (both_branch_raises str_json net body_code
                  (Datetime.strftime (Ui.min_date i)) d (Ui.max_dist i)
                  (Ui.dist_unit i) (Ui.limit i) (core a)) as (e & s' & Hraise).
      eexists _, _. unfold mbind at 1, Script_bind at 1.
      unfold mbind at 1, Script_bind at 1. cbn [local mret Script_ret].
      unfold mbind at 1, Script_bind at 1.
      erewrite run_core_raises; [done|]. exact Hraise.
    + by eexists _, _.
Qed.

(** The branch for 'Both' leaves the state where its first call, for
    'NEO', left it: the second call stops before it touches anything. *)
Lemma both_branch_state body_code min_date max_date max_dist dist_unit limit s :
  (both_branch str_json net body_code min_date max_date max_dist dist_unit
     limit s).2
  = (fetch_close_approaches str_json net body_code min_date max_date max_dist
       dist_unit limit "NEO" s).2.
Proof.
  unfold both_branch. unfold mbind at 1, M_bind at 1.
  destruct (fetch_close_approaches _ _ _ _ _ _ _ _ "NEO" s) as [[data_neo|e] s1];
    [|done].
  unfold fetch_close_approaches, mbind, M_bind.
  by rewrite add_object_type_other.
Qed.

(** The same action, with what it leaves on the page and on the wire:
    nothing for an object type other than 'Both'; for 'Both' what the
    call for 'NEO' sent and reported. *)
Lemma fetch_action_other_trace i body_code max_date a :
  Ui.fetch_data i = true → Ui.object_type i ≠ "NEO" →
  ∃ f a' emitted msgs,
    fetch_action_ i body_code max_date a = (Failed f, a')
    ∧ session_state a' = session_state a
    ∧ rendered a' = rendered a
    ∧ requests_issued (core a') = requests_issued (core a) ++ emitted
    ∧ page (core a') = page (core a) ++ msgs
    ∧ length emitted ≤ 1
    ∧ Forall (λ c, is_st_error c = true) msgs
    ∧ length msgs ≤ 2
    ∧ (Ui.object_type i ≠ "Both" → emitted = [] ∧ msgs = []).
Proof.
  intros Hclick Hty.
  assert (Hstill : ∀ f,
            ∃ f' a' emitted msgs,
              (Failed f : result unit, a) = (Failed f', a')
              ∧ session_state a' = session_state a
              ∧ rendered a' = rendered a
              ∧ requests_issued (core a') = requests_issued (core a) ++ emitted
              ∧ page (core a') = page (core a) ++ msgs
              ∧ length emitted ≤ 1
              ∧ Forall (λ c, is_st_error c = true) msgs
              ∧ length msgs ≤ 2
              ∧ (Ui.object_type i ≠ "Both" → emitted = [] ∧ msgs = [])).
  { intros f. exists f, a, [], []. rewrite !app_nil_r.
    repeat (split; [done|]). split; [cbn; lia|]. split; [constructor|].
    split; [cbn; lia|done]. }
  unfold fetch_action. rewrite Hclick.
  case_bool_decide as Hone.
  - destruct max_date as [d|]; [|by apply Hstill].
    unfold mbind at 1, Script_bind at 1.
    unfold mbind at 1, Script_bind at 1. cbn [local mret Script_ret].
    unfold mbind at 1, Script_bind at 1.
    erewrite run_core_raises.
    2: { unfold fetch_close_approaches, mbind, M_bind.
         by rewrite add_object_type_other. }
    destruct a as [c sess els]. by apply Hstill.
  - case_bool_decide as Hboth; [|by apply Hstill].
    destruct max_date as [d|]; [|by apply Hstill].
    destruct (both_branch_raises str_json net body_code
                (Datetime.strftime (Ui.min_date i)) d (Ui.max_dist i)
                (Ui.dist_unit i) (Ui.limit i) (core a)) as (e & s' & Hraise).
    pose proof (both_branch_state body_code
                  (Datetime.strftime (Ui.min_date i)) d (Ui.max_dist i)
                  (Ui.dist_unit i) (Ui.limit i) (core a)) as Hstate.
    rewrite Hraise in Hstate. cbn [snd] in Hstate.
    destruct (fetch_trace str_json net body_code
                (Datetime.strftime (Ui.min_date i)) d (Ui.max_dist i)
                (Ui.dist_unit i) (Ui.limit i) "NEO" (core a))
      as (emitted & msgs & Hsent & Hpage & Hone' & Herr & Htwo).
    rewrite <- Hstate in Hsent, Hpage.
    exists (Exception e), (App s' (session_state a) (rendered a)), emitted, msgs.
    split.
    { unfold mbind at 1, Script_bind at 1.
      unfold mbind at 1, Script_bind at 1. cbn [local mret Script_ret].
      unfold mbind at 1, Script_bind at 1.
      by erewrite run_core_raises. }
    by repeat (split; [done|]).
Qed.

(** X17. A click on the button with an object type other than 'NEO'
    never completes: the run ends on an exception, with nothing stored in
    the session and no element added to the page. Unless the type is
    'Both', nothing is requested or reported either; for 'Both' one
    request at most goes out, and what is reported is error messages, two
    at most. *)
Theorem click_completes_for_NEO_only i a :
  Ui.fetch_data i = true → Ui.object_type i ≠ "NEO" →
  ∃ f a' emitted msgs,
    main str_json net today statsmodels_installed px_scatter_raises to_csv i a
    = (Failed f, a')
    ∧ session_state a' = session_state a
    ∧ rendered a' = rendered a
    ∧ requests_issued (core a') = requests_issued (core a) ++ emitted
    ∧ page (core a') = page (core a) ++ msgs
    ∧ length emitted ≤ 1
    ∧ Forall (λ c, is_st_error c = true) msgs
    ∧ length msgs ≤ 2
    ∧ (Ui.object_type i ≠ "Both" → emitted = [] ∧ msgs = []).
Proof.
  intros Hclick Hty.
  destruct (main_prelude i a) as [[f Hf]|(body_code & max_date & _ & Hmain & _)].
  - exists f, a, [], []. rewrite !app_nil_r.
    repeat (split; [done|]). split; [cbn; lia|]. split; [constructor|].
    split; [cbn; lia|done].
  - destruct (fetch_action_other_trace i body_code max_date a Hclick Hty)
      as (f & a' & emitted & msgs & Hf & Hrest).
    exists f, a', emitted, msgs. split; [|exact Hrest].
    rewrite Hmain. unfold mbind, Script_bind. by rewrite Hf.
Qed.

(** The chart touches neither the session nor the requests. *)
Lemma visualize_frame fd body t a :
  session_state (visualize fd body t a).2 = session_state a
  ∧ requests_issued (core (visualize fd body t a).2) = requests_issued (core a).
Proof.
  unfold visualize_close_approaches.
  destruct (frame_empty fd); [done|].
  destruct t, statsmodels_installed; run_Script; unfold run_core; cbn;
    match goal with
    | |- context [px_scatter_raises ?c] => by destruct (px_scatter_raises c)
    end.
Qed.

(** Unfolds the sequencing of the script, leaving its steps folded. *)
Ltac step_Script :=
  unfold mbind, Script_bind, mret, Script_ret;
  cbn [get_session set_session render subscript local of_outcome fail mret
       Script_ret from_option negb fst snd core session_state rendered].

(** Nor does the display of the stored frame. *)
Lemma display_frame i a :
  session_state (display_ i a).2 = session_state a
  ∧ requests_issued (core (display_ i a).2) = requests_issued (core a).
Proof.
  unfold display. step_Script.
  destruct (s_fd (session_state a)) as [fd|]; step_Script;
    [|by destruct (Ui.fetch_data i)].
  destruct (frame_empty fd) eqn:Hempty; step_Script;
    [by destruct (Ui.fetch_data i)|].
  destruct (s_body_display _) as [b|]; [|done].
  destruct (s_dist_unit _) as [u|]; [|done].
  destruct (select fd table_columns) as [t|e]; [|done].
  step_Script.
  destruct (visualize_frame fd b (Ui.add_trendline i)
           (App (core a) (session_state a)
              ((rendered a ++ [st_dataframe (rename (table_names u) t)])
               ++ [st_download_button (to_csv fd)]))) as [Hs Hr].
  by destruct (visualize _ _ _ _) as [[[]|f] a'].
Qed.

(** The action of the button for 'NEO', step by step. *)
Lemma fetch_action_NEO i body_code max_date a :
  Ui.fetch_data i = true → Ui.object_type i = "NEO" →
  fetch_action_ i body_code (Some max_date) a
  = match fetch_close_approaches str_json net body_code
            (Datetime.strftime (Ui.min_date i)) max_date (Ui.max_dist i)
            (Ui.dist_unit i) (Ui.limit i) "NEO" (core a) with
    | (Raise e, s1) =>
        (Failed (Exception e), App s1 (session_state a) (rendered a))
    | (Return data, s1) =>
        match parse_data data s1 with
        | (Raise e, s2) =>
            (Failed (Exception e), App s2 (session_state a) (rendered a))
        | (Return fd, s2) =>
            if frame_empty fd
            then (Done tt, App s2 (stored empty_frame i) (rendered a))
            else (Done tt, App s2 (stored fd i)
                             (rendered a
                              ++ [found (length (rows fd)) (Ui.body_display i)]))
        end
    end.
Proof.
  intros Hclick Hty. unfold fetch_action. rewrite Hclick, Hty.
  rewrite bool_decide_eq_true_2 by (apply list_elem_of_here).
  step_Script. unfold run_core at 1.
  destruct (fetch_close_approaches _ _ _ _ _ _ _ _ _ _) as [[data|e] s1];
    [|done].
  unfold run_core. cbn [core session_state rendered].
  destruct (parse_data data s1) as [[fd|e] s2]; [|done].
  step_Script. destruct (frame_empty fd); reflexivity.
Qed.

(** The action leaves the session as it was or stores the three keys. *)
Lemma fetch_action_session i body_code max_date a :
  session_state (fetch_action_ i body_code max_date a).2 = session_state a
  ∨ ∃ fd, session_state (fetch_action_ i body_code max_date a).2 = stored fd i.
Proof.
  destruct (Ui.fetch_data i) eqn:Hclick;
    [|left; unfold fetch_action; by rewrite Hclick].
  destruct (decide (Ui.object_type i = "NEO")) as [Hty|Hty].
  - destruct max_date as [d|].
    + rewrite fetch_action_NEO by done.
      destruct (fetch_close_approaches _ _ _ _ _ _ _ _ _ _) as [[data|e] s1];
        [|by left].
      destruct (parse_data data s1) as [[fd|e] s2]; [|by left].
      right. destruct (frame_empty fd); by eexists.
    + left. unfold fetch_action. rewrite Hclick, Hty.
      by rewrite bool_decide_eq_true_2 by (apply list_elem_of_here).
  - left.
    destruct (fetch_action_other i body_code max_date a Hclick Hty)
      as (f & a' & -> & Hsession & _).
    done.
Qed.

(** One run keeps the three keys together. *)
Lemma main_session i a :
  session_state (main_ i a).2 = session_state a
  ∨ ∃ fd, session_state (main_ i a).2 = stored fd i.
Proof.
  destruct (main_prelude i a) as [[f ->]|(body_code & max_date & _ & -> & _)];
    [by left|].
  unfold mbind, Script_bind.
  destruct (fetch_action_session i body_code max_date a) as [Hs|[fd Hs]];
    destruct (fetch_action_ i body_code max_date a) as [[[]|f] a1];
    cbn [snd] in *;
    try destruct (display_frame i a1) as [Hd _];
    try rewrite Hd; eauto.
Qed.

(** X18. Whatever the widgets hand to a sequence of runs, the session
    keeps its three keys together: where a frame is stored, a display
    name and a unit are stored with it, so that lines 270-271 find them. *)
Theorem runs_keep_the_session_consistent inputs a :
  consistent (session_state a) →
  consistent
    (session_state
       (foldl (λ a i, (main_ i a).2) a inputs)).
Proof.
  revert a. induction inputs as [|i inputs IH]; intros a Ha; [done|].
  cbn [foldl]. apply IH.
  destruct (main_session i a) as [->|[fd ->]]; [done|].
  intros _. by split.
Qed.

(** X19. Without a click on the button a run requests nothing and leaves
    the session as it is. *)
Theorem without_a_click_nothing_is_fetched i a :
  Ui.fetch_data i = false →
  requests_issued
    (core (main str_json net today statsmodels_installed px_scatter_raises
             to_csv i a).2)
  = requests_issued (core a)
  ∧ session_state
      (main str_json net today statsmodels_installed px_scatter_raises
         to_csv i a).2
    = session_state a.
Proof.
  intros Hclick.
  destruct (main_prelude i a) as [[f ->]|(body_code & max_date & _ & -> & _)];
    [done|].
  unfold fetch_action. rewrite Hclick. step_Script.
  destruct (display_frame i a) as [Hs Hr]. by rewrite Hs, Hr.
Qed.

(** Days are counted in steps of at most one on a scale of months of 28
    days, which bounds the year reached. *)
Lemma next_day_scale d :
  calendar_day d →
  28 * (12 * Datetime.d_year (Datetime.next_day d)
        + Datetime.d_month (Datetime.next_day d))
  + Datetime.d_day (Datetime.next_day d) `min` 28
  ≤ 28 * (12 * Datetime.d_year d + Datetime.d_month d)
    + Datetime.d_day d `min` 28 + 1.
Proof.
  destruct d as [y m dd]. unfold calendar_day, Datetime.next_day.
  cbn [Datetime.d_year Datetime.d_month Datetime.d_day]. intros [Hm Hd].
  assert (H28 : 28 ≤ Pandas.days_in_month y m).
  { unfold Pandas.days_in_month.
    do 12 (destruct m as [|m]; [try destruct (Pandas.is_leap y); lia|]). lia. }
  destruct (Nat.ltb_spec dd (Pandas.days_in_month y m));
    cbn [Datetime.d_year Datetime.d_month Datetime.d_day]; [lia|].
  destruct (Nat.ltb_spec m 12);
    cbn [Datetime.d_year Datetime.d_month Datetime.d_day]; lia.
Qed.

Lemma plus_days_scale d n :
  calendar_day d →
  calendar_day (Datetime.plus_days d n)
  ∧ 336 * Datetime.d_year (Datetime.plus_days d n)
    ≤ 336 * Datetime.d_year d + 364 + n.
Proof.
  intros Hd. unfold Datetime.plus_days.
  assert (calendar_day (Nat.iter n Datetime.next_day d)
          ∧ 28 * (12 * Datetime.d_year (Nat.iter n Datetime.next_day d)
                  + Datetime.d_month (Nat.iter n Datetime.next_day d))
            + Datetime.d_day (Nat.iter n Datetime.next_day d) `min` 28
            ≤ 28 * (12 * Datetime.d_year d + Datetime.d_month d)
              + Datetime.d_day d `min` 28 + n) as [Hc Hscale].
  { induction n as [|n [Hc IH]].
    - change (Nat.iter 0 Datetime.next_day d) with d. split; [done|lia].
    - change (Nat.iter (S n) Datetime.next_day d)
        with (Datetime.next_day (Nat.iter n Datetime.next_day d)).
      split; [by apply next_day_calendar_day|].
      pose proof (next_day_scale _ Hc). lia. }
  split; [done|]. destruct Hd as [Hm _]. lia.
Qed.

Lemma add_timedelta_plus_days d n e :
  Datetime.add_timedelta d n = Some e → e = Datetime.plus_days d n.
Proof. unfold Datetime.add_timedelta. case_match; congruence. Qed.

(** X20. Within the bounds of the two widgets (a start date up to the
    year 2100, 1 to 36525 days), the option 'Days from Start Date' always
    yields an end date: a calendar day after the start date, not past
    2209, formatted for the request. *)
Theorem days_option_gives_a_later_end_date i default_end_date a :
  Ui.max_date_option i = "Days from Start Date" →
  calendar_day (Ui.min_date i) →
  Datetime.d_year (Ui.min_date i) ≤ 2100 →
  1 ≤ Ui.days_from_start i →
  (Z.of_nat (Ui.days_from_start i) ≤ 36525)%Z →
  ∃ e, end_date i default_end_date a = (Done (Some (Datetime.strftime e)), a)
       ∧ calendar_day e
       ∧ date_before (Ui.min_date i) e
       ∧ Datetime.d_year e ≤ 2209.
Proof.
  intros Hoption Hday Hyear Hone Hmany.
  destruct (plus_days_scale _ (Ui.days_from_start i) Hday) as [Hc Hscale].
  destruct (plus_days_later _ (Ui.days_from_start i) Hday Hone) as [_ Hlater].
  assert (Hy : Datetime.d_year
                 (Datetime.plus_days (Ui.min_date i) (Ui.days_from_start i))
               ≤ 2209) by lia.
  exists (Datetime.plus_days (Ui.min_date i) (Ui.days_from_start i)).
  split; [|done].
  unfold end_date, Datetime.add_timedelta. rewrite Hoption.
  rewrite bool_decide_eq_true_2 by done.
  by rewrite (proj2 (Z.leb_le _ _)) by lia.
Qed.

(** The branch for 'Both' sends the request for 'NEO' and no other. *)
Lemma both_branch_requests body_code min_date max_date max_dist dist_unit limit s :
  requests_issued
    (both_branch str_json net body_code min_date max_date max_dist dist_unit
       limit s).2
  = requests_issued s
    ++ [(url, <["neo" := PyStr "true"]>
                (my_params_literal body_code min_date max_date max_dist
                   dist_unit limit))].
Proof.
  pose proof (fetch_requests str_json net body_code min_date max_date max_dist
                dist_unit limit "NEO" s) as Hneo.
  rewrite bool_decide_eq_true_2 in Hneo by done.
  unfold both_branch. unfold mbind at 1, M_bind at 1.
  destruct (fetch_close_approaches _ _ _ _ _ _ _ _ "NEO" s) as [[data_neo|e] s1];
    [|done].
  unfold fetch_close_approaches, mbind, M_bind.
  by rewrite add_object_type_other.
Qed.

(** What the action of the button sends: nothing, or one request with the
    flag [neo] and the start and end dates it was given. *)
Lemma fetch_action_requests i body_code max_date a :
  ∃ emitted,
    requests_issued (core (fetch_action_ i body_code max_date a).2)
    = requests_issued (core a) ++ emitted
    ∧ (emitted = []
       ∨ ∃ d, max_date = Some d
              ∧ emitted
                = [(url, <["neo" := PyStr "true"]>
                           (my_params_literal body_code
                              (Datetime.strftime (Ui.min_date i)) d
                              (Ui.max_dist i) (Ui.dist_unit i) (Ui.limit i)))]).
Proof.
  unfold fetch_action.
  destruct (Ui.fetch_data i);
    [|exists []; by rewrite app_nil_r; split; [|left]].
  destruct max_date as [d|];
    [|exists []; rewrite app_nil_r; split; [|by left];
      by repeat case_bool_decide].
  case_bool_decide as Hone; [|case_bool_decide as Hboth].
  - step_Script.
    pose proof (fetch_requests str_json net body_code
                  (Datetime.strftime (Ui.min_date i)) d (Ui.max_dist i)
                  (Ui.dist_unit i) (Ui.limit i) (Ui.object_type i) (core a))
      as Hsent.
    unfold run_core at 1.
    destruct (fetch_close_approaches _ _ _ _ _ _ _ _ _ _) as [[data|e] s1];
      cbn [snd] in Hsent.
    + unfold run_core. cbn [core session_state rendered].
      pose proof (parse_data_requests data s1) as Hparse.
      destruct (parse_data data s1) as [[fd|e] s2]; cbn [snd] in Hparse.
      * eexists. split.
        { step_Script. destruct (frame_empty fd); cbn; by rewrite Hparse, Hsent. }
        case_bool_decide; [right; by exists d|by left].
      * eexists. split; [cbn; by rewrite Hparse, Hsent|].
        case_bool_decide; [right; by exists d|by left].
    + eexists. split; [by cbn; rewrite Hsent|].
      case_bool_decide; [right; by exists d|by left].
  - step_Script.
    pose proof (both_branch_requests body_code
                  (Datetime.strftime (Ui.min_date i)) d (Ui.max_dist i)
                  (Ui.dist_unit i) (Ui.limit i) (core a)) as Hsent.
    unfold run_core at 1.
    destruct (both_branch _ _ _ _ _ _ _ _ _) as [[fd|e] s1]; cbn [snd] in Hsent.
    + eexists. split; [|right; by exists d].
      step_Script. by destruct (frame_empty fd); cbn.
    + eexists. split; [by cbn|]. right; by exists d.
  - exists []. rewrite app_nil_r. by split; [|left].
Qed.

(** X21. Under the option 'Days from Start Date' with at least one day, a
    run sends at most one request, and what it sends asks for a window
    that ends after it starts: [date-min] is the start date and
    [date-max] a later calendar day, both as 'YYYY-MM-DD'. *)
Theorem requested_window_ends_after_it_starts i a :
  Ui.max_date_option i = "Days from Start Date" →
  calendar_day (Ui.min_date i) →
  1 ≤ Ui.days_from_start i →
  ∃ e emitted,
    calendar_day e ∧ date_before (Ui.min_date i) e
    ∧ requests_issued (core (main_ i a).2) = requests_issued (core a) ++ emitted
    ∧ length emitted ≤ 1
    ∧ Forall (λ req : string * gmap string pyobj,
                req.2 !! "date-min"
                = Some (PyStr (Datetime.strftime (Ui.min_date i)))
                ∧ req.2 !! "date-max" = Some (PyStr (Datetime.strftime e)))
             emitted.
Proof.
  intros Hoption Hday Hone.
  destruct (plus_days_later _ (Ui.days_from_start i) Hday Hone) as [Hc Hlater].
  exists (Datetime.plus_days (Ui.min_date i) (Ui.days_from_start i)).
  destruct (main_prelude i a)
    as [[f ->]|(body_code & max_date & _ & -> & Hdate)].
  { exists []. rewrite app_nil_r. split; [done|]. split; [done|].
    split; [done|]. split; [cbn; lia|by apply Forall_nil]. }
  destruct Hdate as [[_ Hother]|(e & _ & He%add_timedelta_plus_days & ->)];
    [done|subst e].
  destruct (fetch_action_requests i body_code
              (Some (Datetime.strftime
                       (Datetime.plus_days (Ui.min_date i)
                          (Ui.days_from_start i)))) a)
    as (emitted & Hsent & Hemitted).
  exists emitted. split; [done|]. split; [done|]. split.
  - unfold mbind, Script_bind.
    destruct (fetch_action_ _ _ _ _) as [[[]|f] a1]; cbn [snd] in *; [|done].
    destruct (display_frame i a1) as [_ Hr]. by rewrite Hr.
  - destruct Hemitted as [->|(d & [= <-] & ->)]; [by split; [cbn; lia|]|].
    split; [cbn; lia|]. apply Forall_cons. split; [|by apply Forall_nil].
    by split.
Qed.

(** With a body of the table, a default end date and a day counted from
    the start date, a run is the action of the button followed by the
    display. *)
Lemma main_days i a body_code e :
  BODY_CODES !! Ui.body_display i = Some body_code →
  is_Some (Datetime.add_timedelta today 60) →
  Ui.max_date_option i = "Days from Start Date" →
  Datetime.add_timedelta (Ui.min_date i) (Ui.days_from_start i) = Some e →
  main_ i a
  = (fetch_action_ i body_code (Some (Datetime.strftime e));; display_ i) a.
Proof.
  intros Hb [d Hd] Hoption He.
  unfold main, end_date. by rewrite Hb, Hd, Hoption, He.
Qed.

(** The chart and the display only add to the elements on the page. *)
Lemma visualize_appends fd body t a :
  ∃ more, rendered (visualize fd body t a).2 = rendered a ++ more.
Proof.
  unfold visualize_close_approaches.
  destruct (frame_empty fd); [exists []; by rewrite app_nil_r|].
  destruct t, statsmodels_installed; run_Script; unfold run_core; cbn;
    match goal with
    | |- context [px_scatter_raises ?c] => destruct (px_scatter_raises c)
    end; cbn; (by eexists) || (exists []; by rewrite app_nil_r).
Qed.

Lemma display_appends i a :
  ∃ more, rendered (display_ i a).2 = rendered a ++ more.
Proof.
  unfold display. step_Script.
  destruct (s_fd (session_state a)) as [fd|]; step_Script;
    [|destruct (Ui.fetch_data i); by eexists].
  destruct (frame_empty fd) eqn:Hempty; step_Script;
    [destruct (Ui.fetch_data i); by eexists|].
  destruct (s_body_display _) as [b|]; [|exists []; by rewrite app_nil_r].
  destruct (s_dist_unit _) as [u|]; [|exists []; by rewrite app_nil_r].
  destruct (select fd table_columns) as [t|e];
    [|exists []; by rewrite app_nil_r].
  step_Script.
  destruct (visualize_appends fd b (Ui.add_trendline i)
           (App (core a) (session_state a)
              ((rendered a ++ [st_dataframe (rename (table_names u) t)])
               ++ [st_download_button (to_csv fd)]))) as [more Hmore].
  destruct (visualize _ _ _ _) as [[[]|f] a']; cbn [snd rendered] in *;
    rewrite Hmore, <- !app_assoc; by eexists.
Qed.

(** X22. A click for 'NEO' whose fetch comes back and whose payload
    parses to an empty frame (no payload at all after a reported error,
    or a count of zero) completes: a new empty frame is stored with the
    name and the unit, no success message is shown, and the page says
    that there is no data. *)
Theorem empty_result_is_stored_and_explained i a body_code e data s1 fd s2 :
  BODY_CODES !! Ui.body_display i = Some body_code →
  is_Some (Datetime.add_timedelta today 60) →
  Ui.max_date_option i = "Days from Start Date" →
  Datetime.add_timedelta (Ui.min_date i) (Ui.days_from_start i) = Some e →
  Ui.fetch_data i = true →
  Ui.object_type i = "NEO" →
  fetch_close_approaches str_json net body_code
    (Datetime.strftime (Ui.min_date i)) (Datetime.strftime e) (Ui.max_dist i)
    (Ui.dist_unit i) (Ui.limit i) "NEO" (core a) = (Return data, s1) →
  parse_data data s1 = (Return fd, s2) →
  frame_empty fd = true →
  main_ i a
  = (Done tt,
     App s2 (stored empty_frame i)
       (rendered a
        ++ [st_info
              "ℹ️ No data available to display. Please adjust your search parameters."])).
Proof.
  intros Hb Htoday Hoption He Hclick Hty Hfetch Hparse Hempty.
  rewrite (main_days i a body_code e) by done.
  unfold mbind, Script_bind.
  rewrite fetch_action_NEO, Hfetch, Hparse, Hempty by done.
  unfold display. step_Script. by rewrite Hclick.
Qed.

(** X23. A click for 'NEO' whose payload parses to a frame with rows
    stores that frame with the name and the unit, whatever the display
    does next, and the first thing it adds to the page is the success
    message with the number of rows. *)
Theorem fetched_rows_are_stored_and_announced i a body_code e data s1 fd s2 :
  BODY_CODES !! Ui.body_display i = Some body_code →
  is_Some (Datetime.add_timedelta today 60) →
  Ui.max_date_option i = "Days from Start Date" →
  Datetime.add_timedelta (Ui.min_date i) (Ui.days_from_start i) = Some e →
  Ui.fetch_data i = true →
  Ui.object_type i = "NEO" →
  fetch_close_approaches str_json net body_code
    (Datetime.strftime (Ui.min_date i)) (Datetime.strftime e) (Ui.max_dist i)
    (Ui.dist_unit i) (Ui.limit i) "NEO" (core a) = (Return data, s1) →
  parse_data data s1 = (Return fd, s2) →
  frame_empty fd = false →
  session_state (main_ i a).2 = stored fd i
  ∧ ∃ more,
      rendered (main_ i a).2
      = rendered a ++ found (length (rows fd)) (Ui.body_display i) :: more.
Proof.
  intros Hb Htoday Hoption He Hclick Hty Hfetch Hparse Hempty.
  rewrite (main_days i a body_code e) by done.
  unfold mbind, Script_bind.
  rewrite fetch_action_NEO, Hfetch, Hparse, Hempty by done.
  match goal with |- context [display_ i ?a1] =>
    destruct (display_frame i a1) as [Hs _];
    destruct (display_appends i a1) as [more Hmore]
  end.
  cbn [rendered session_state] in Hs, Hmore.
  split; [done|]. exists more. by rewrite Hmore, <- app_assoc.
Qed.

(** X24. The table needs the five columns: when the stored frame has
    rows but lacks one of 'des', 'cd', 'dist', 'v_rel', 'v_inf', the
    display stops on a [KeyError] before anything is shown. *)
Theorem table_needs_its_five_columns i a fd :
  s_fd (session_state a) = Some fd →
  frame_empty fd = false →
  is_Some (s_body_display (session_state a)) →
  is_Some (s_dist_unit (session_state a)) →
  ¬ Forall (λ c, c ∈ columns fd) table_columns →
  ∃ e, display_ i a = (Failed (Exception e), a) ∧ exc_cls e = KeyError.
Proof.
  intros Hfd Hempty [b Hb] [u Hu] Hmissing.
  unfold display. step_Script. rewrite Hfd, Hb, Hu. step_Script.
  rewrite Hempty. step_Script. unfold select.
  rewrite bool_decide_eq_false_2 by done.
  by eexists.
Qed.

(** X25. On a frame with rows the chart is drawn from one call of
    [px.scatter] over that frame: its trendline is 'ols' exactly when one
    was asked for and statsmodels can be imported, the warning is
    reported exactly when one was asked for and it cannot, and the chart
    is put on the page, y axis reversed, unless the call raises. *)
Theorem trendline_needs_statsmodels fd body t a :
  frame_empty fd = false →
  ∃ call,
    sc_data call = fd
    ∧ sc_trendline call
      = (if t && statsmodels_installed then Some "ols" else None)
    ∧ page (core (visualize fd body t a).2)
      = page (core a)
        ++ (if t && negb statsmodels_installed
            then [st_warning
                    "⚠️ Statsmodels is not installed. Trendline feature is disabled"]
            else [])
    ∧ match px_scatter_raises call with
      | Some e =>
          (visualize fd body t a).1 = Failed (Exception e)
          ∧ rendered (visualize fd body t a).2 = rendered a
      | None =>
          (visualize fd body t a).1 = Done tt
          ∧ rendered (visualize fd body t a).2
            = rendered a ++ [st_plotly_chart call true]
      end.
Proof.
  intros Hempty. unfold visualize_close_approaches. rewrite Hempty.
  exists (Scatter fd "cd" "dist" ["des"; "v_rel"; "v_inf"]
            [("cd", "📅 Date");
             ("dist", "📏 Distance ("
                      +:+ default "AU" (s_dist_unit (session_state a)) +:+ ")");
             ("des", "🪐 Designation");
             ("v_rel", "⚡ Relative Velocity (km/s)");
             ("v_inf", "∞ Infinity Velocity (km/s)")]
            ("🔭 Close Approached to " +:+ body)
            (if t && statsmodels_installed then Some "ols" else None)).
  split; [done|]. split; [done|].
  destruct t, statsmodels_installed; run_Script; unfold run_core; cbn;
    match goal with
    | |- context [px_scatter_raises ?c] => destruct (px_scatter_raises c)
    end; cbn; by rewrite ?app_nil_r.
Qed.

End ScriptFacts.

Lemma specific_date_option_raises_ValueError_witness :
  ∃ e, script unreachable (click "Specific Date" "NEO") fresh
       = (Failed (Exception e), fresh)
       ∧ exc_cls e = ValueError.
Proof.
  apply (specific_date_option_raises_ValueError (λ _, "{}") unreachable
           (Datetime.Date 2025 1 15) false (λ _, None) (λ _, "csv")
           (click "Specific Date" "NEO") fresh).
  - exists "Earth". by vm_compute.
  - exists (Datetime.Date 2025 3 16). by vm_compute.
  - reflexivity.
Defined.

Lemma click_completes_for_NEO_only_witness :
  ∃ f a' emitted msgs,
    script unreachable (click "Days from Start Date" "Both") fresh
    = (Failed f, a')
    ∧ session_state a' = session_state fresh
    ∧ rendered a' = rendered fresh
    ∧ requests_issued (core a') = requests_issued (core fresh) ++ emitted
    ∧ page (core a') = page (core fresh) ++ msgs
    ∧ length emitted ≤ 1
    ∧ Forall (λ c, is_st_error c = true) msgs
    ∧ length msgs ≤ 2
    ∧ (Ui.object_type (click "Days from Start Date" "Both") ≠ "Both" →
       emitted = [] ∧ msgs = []).
Proof.
  apply (click_completes_for_NEO_only (λ _, "{}") unreachable
           (Datetime.Date 2025 1 15) false (λ _, None) (λ _, "csv")
           (click "Days from Start Date" "Both") fresh);
    [reflexivity|discriminate].
Defined.

Lemma runs_keep_the_session_consistent_witness :
  consistent
    (session_state
       (foldl (λ a i,
                 (script (answering (scenario "2025-Jan-15 03:20" "0.0123"))
                    i a).2)
          fresh
          [click "Days from Start Date" "NEO"; idle;
           click "Days from Start Date" "Comet"])).
Proof.
  apply (runs_keep_the_session_consistent (λ _, "{}")
           (answering (scenario "2025-Jan-15 03:20" "0.0123"))
           (Datetime.Date 2025 1 15) false (λ _, None) (λ _, "csv")
           [click "Days from Start Date" "NEO"; idle;
            click "Days from Start Date" "Comet"] fresh).
  intros [fd Hfd]. discriminate Hfd.
Defined.

Lemma without_a_click_nothing_is_fetched_witness :
  requests_issued (core (script unreachable idle fresh).2)
  = requests_issued (core fresh)
  ∧ session_state (script unreachable idle fresh).2 = session_state fresh.
Proof.
  apply (without_a_click_nothing_is_fetched (λ _, "{}") unreachable
           (Datetime.Date 2025 1 15) false (λ _, None) (λ _, "csv") idle fresh).
  reflexivity.
Defined.

Lemma days_option_gives_a_later_end_date_witness :
  ∃ e, end_date (click "Days from Start Date" "NEO")
         (Datetime.Date 2025 3 16) fresh
       = (Done (Some (Datetime.strftime e)), fresh)
       ∧ calendar_day e
       ∧ date_before (Datetime.Date 2025 1 15) e
       ∧ Datetime.d_year e ≤ 2209.
Proof.
  apply (days_option_gives_a_later_end_date
           (click "Days from Start Date" "NEO")).
  - reflexivity.
  - unfold calendar_day. cbn. lia.
  - cbn. lia.
  - cbn. lia.
  - cbn. lia.
Defined.

Lemma requested_window_ends_after_it_starts_witness :
  ∃ e emitted,
    calendar_day e ∧ date_before (Datetime.Date 2025 1 15) e
    ∧ requests_issued
        (core (script unreachable (click "Days from Start Date" "Both")
                 fresh).2)
      = requests_issued (core fresh) ++ emitted
    ∧ length emitted ≤ 1
    ∧ Forall (λ req : string * gmap string pyobj,
                req.2 !! "date-min" = Some (PyStr "2025-01-15")
                ∧ req.2 !! "date-max" = Some (PyStr (Datetime.strftime e)))
             emitted.
Proof.
  apply (requested_window_ends_after_it_starts (λ _, "{}") unreachable
           (Datetime.Date 2025 1 15) false (λ _, None) (λ _, "csv")
           (click "Days from Start Date" "Both")).
  - reflexivity.
  - unfold calendar_day. cbn. lia.
  - cbn. lia.
Defined.

Lemma empty_result_is_stored_and_explained_witness :
  script unreachable (click "Days from Start Date" "NEO") fresh
  = (Done tt,
     App (State
            [(url, <["neo" := PyStr "true"]>
                     (my_params_literal "Earth" "2025-01-15" "2025-03-16"
                        "0.05" "AU" 100))]
            [st_error "⚠️ Error fetching data from API: Max retries exceeded";
             st_warning "⚠️ No close approached found for the given parameters."])
       (stored empty_frame (click "Days from Start Date" "NEO"))
       [st_info
          "ℹ️ No data available to display. Please adjust your search parameters."]).
Proof.
  apply (empty_result_is_stored_and_explained (λ _, "{}") unreachable
           (Datetime.Date 2025 1 15) false (λ _, None) (λ _, "csv")
           (click "Days from Start Date" "NEO") fresh "Earth"
           (Datetime.Date 2025 3 16) None
           (State
              [(url, <["neo" := PyStr "true"]>
                       (my_params_literal "Earth" "2025-01-15" "2025-03-16"
                          "0.05" "AU" 100))]
              [st_error "⚠️ Error fetching data from API: Max retries exceeded"])
           empty_frame).
  - by vm_compute.
  - exists (Datetime.Date 2025 3 16). by vm_compute.
  - reflexivity.
  - by vm_compute.
  - reflexivity.
  - reflexivity.
  - by vm_compute.
  - by vm_compute.
  - by vm_compute.
Defined.

Lemma fetched_rows_are_stored_and_announced_witness :
  session_state
    (script (answering (scenario "2025-Jan-15 03:20" "0.0123"))
       (click "Days from Start Date" "NEO") fresh).2
  = stored scenario_frame (click "Days from Start Date" "NEO")
  ∧ ∃ more,
      rendered
        (script (answering (scenario "2025-Jan-15 03:20" "0.0123"))
           (click "Days from Start Date" "NEO") fresh).2
      = rendered fresh ++ found 1 "Earth" :: more.
Proof.
  apply (fetched_rows_are_stored_and_announced (λ _, "{}")
           (answering (scenario "2025-Jan-15 03:20" "0.0123"))
           (Datetime.Date 2025 1 15) false (λ _, None) (λ _, "csv")
           (click "Days from Start Date" "NEO") fresh "Earth"
           (Datetime.Date 2025 3 16)
           (Some (scenario "2025-Jan-15 03:20" "0.0123"))
           (State
              [(url, <["neo" := PyStr "true"]>
                       (my_params_literal "Earth" "2025-01-15" "2025-03-16"
                          "0.05" "AU" 100))]
              [])
           scenario_frame
           (State
              [(url, <["neo" := PyStr "true"]>
                       (my_params_literal "Earth" "2025-01-15" "2025-03-16"
                          "0.05" "AU" 100))]
              [])).
  - by vm_compute.
  - exists (Datetime.Date 2025 3 16). by vm_compute.
  - reflexivity.
  - by vm_compute.
  - reflexivity.
  - reflexivity.
  - by vm_compute.
  - by vm_compute.
  - by vm_compute.
Defined.

Lemma table_needs_its_five_columns_witness :
  ∃ e,
    display false (λ _, None) (λ _, "csv") idle
      (App initial
         (Session (Some (Frame ["cd"; "dist"] [[Str "2025-Jan-15 03:20"; Str "0.0123"]]))
            (Some "Earth") (Some "AU"))
         [])
    = (Failed (Exception e),
       App initial
         (Session (Some (Frame ["cd"; "dist"] [[Str "2025-Jan-15 03:20"; Str "0.0123"]]))
            (Some "Earth") (Some "AU"))
         [])
    ∧ exc_cls e = KeyError.
Proof.
  apply (table_needs_its_five_columns false (λ _, None) (λ _, "csv") idle _
           (Frame ["cd"; "dist"] [[Str "2025-Jan-15 03:20"; Str "0.0123"]])).
  - reflexivity.
  - by vm_compute.
  - by exists "Earth".
  - by exists "AU".
  - apply (bool_decide_unpack _). by vm_compute.
Defined.

Lemma trendline_needs_statsmodels_witness :
  ∃ call,
    sc_data call = scenario_frame
    ∧ sc_trendline call = None
    ∧ page (core (visualize_close_approaches false (λ _, None) scenario_frame
                    "Earth" true fresh).2)
      = [st_warning
           "⚠️ Statsmodels is not installed. Trendline feature is disabled"]
    ∧ (visualize_close_approaches false (λ _, None) scenario_frame "Earth"
         true fresh).1 = Done tt
    ∧ rendered (visualize_close_approaches false (λ _, None) scenario_frame
                  "Earth" true fresh).2
      = [st_plotly_chart call true].
Proof.
  destruct (trendline_needs_statsmodels false (λ _, None) scenario_frame
              "Earth" true fresh) as (call & Hdata & Htrend & Hpage & Hdone & Hchart).
  - by vm_compute.
  - by exists call.
Defined.
